(** * OBDCommand: a shallow embedding of [obd/OBDCommand.py]

    The command descriptor of python-OBD: attribution filter, frame-count
    check, payload normalisation, decode dispatch, the derived [mode] and
    [pid] accessors, cloning, and identity (equality and hash).

    Python objects that the code mutates in place (the messages of a batch)
    live in a store indexed by references; a batch is a list of references,
    so one message object may occur several times in a batch, and two
    message objects may hold one bytearray as their payload. *)

From Stdlib Require Import ZArith NArith String.
From Stdlib.Strings Require Import Byte.
From stdpp Require Import base tactics functions list.

Local Open Scope Z_scope.

(** ** Python results: a value or a raised exception *)

(** The text handed to [OBDError(...)] and to [logger.warning(...)]. Every
    text of the source is [template.format(args)]; a text is kept as its
    template (the constructor) and its arguments. The first argument is
    always [self], which [format] renders through [__str__]. *)
Inductive Text : Type :=
| ExpectedFrames (cmd : list byte * string) (expected got : Z)
    (* "Command '{:}' expected {:} frames returned but got {:}" *)
| LongerThanExpected (cmd : list byte * string) (got expected : Z)
    (* "Command '{:}' response message is longer than expected ({:}/{:})" *)
| LongerTrimmed (cmd : list byte * string) (trimmed : list byte)
    (* "... is longer than expected - trimmed message: {:}" *)
| ShorterThanExpected (cmd : list byte * string) (got expected : Z)
    (* "Command '{:}' response message is shorter than expected ({:}/{:})" *)
| ShorterPadded (cmd : list byte * string) (padded : list byte)
    (* "... is shorter than expected - padded message: {:}" *)
| NoAcceptableMessages (cmd : list byte * string).
    (* "Command '{:}' did not receive any acceptable messages" *)

Inductive exn : Type :=
| OBDError (msg : Text)
| UnicodeDecodeError
| ValueError.

Inductive result (A : Type) : Type :=
| Ok (a : A)
| Raise (e : exn).
Arguments Ok {A} a.
Arguments Raise {A} e.

(** ** Bytes and text *)

Definition ord (b : byte) : Z := Z.of_N (Byte.to_N b).

Definition in_range (lo hi x : Z) : bool := (lo <=? x) && (x <=? hi).

(** A continuation byte [10xxxxxx]. *)
Definition cont (x : Z) : bool := in_range 128 191 x.

(** [bytes.decode()]: strict UTF-8. The result is the list of code points of
    the [str], or [None] where Python raises [UnicodeDecodeError]. The
    accepted sequences are the well-formed ones of the Unicode standard: no
    overlong forms, no surrogates, nothing above U+10FFFF. *)
Fixpoint utf8_decode (bs : list byte) : option (list Z) :=
  match bs with
  | [] => Some []
  | b0 :: r0 =>
    let x0 := ord b0 in
    if x0 <=? 127 then cons x0 <$> utf8_decode r0
    else match r0 with
    | [] => None
    | b1 :: r1 =>
      let x1 := ord b1 in
      if in_range 194 223 x0 then
        if cont x1
        then cons ((x0 - 192) * 64 + (x1 - 128)) <$> utf8_decode r1
        else None
      else match r1 with
      | [] => None
      | b2 :: r2 =>
        let x2 := ord b2 in
        if in_range 224 239 x0 then
          if (if x0 =? 224 then in_range 160 191 x1
              else if x0 =? 237 then in_range 128 159 x1
              else cont x1) && cont x2
          then cons ((x0 - 224) * 4096 + (x1 - 128) * 64 + (x2 - 128))
                 <$> utf8_decode r2
          else None
        else match r2 with
        | [] => None
        | b3 :: r3 =>
          let x3 := ord b3 in
          if in_range 240 244 x0 then
            if (if x0 =? 240 then in_range 144 191 x1
                else if x0 =? 244 then in_range 128 143 x1
                else cont x1) && cont x2 && cont x3
            then cons ((x0 - 240) * 262144 + (x1 - 128) * 4096
                       + (x2 - 128) * 64 + (x3 - 128))
                   <$> utf8_decode r3
            else None
          else None
        end
      end
    end
  end.

(** [c in string.hexdigits] for one character [c]: the digits, [a]-[f] and
    [A]-[F]. *)
Definition hexdigit (c : Z) : bool :=
  in_range 48 57 c || in_range 97 102 c || in_range 65 70 c.

(** Modelled from the spec: [isHex] of [obd/utils.py], which is not among the
    sources. The spec calls its result "valid hexadecimal": every character
    of the text is a hexadecimal digit. *)
Definition isHex (text : list Z) : bool := forallb hexdigit text.

(** The value of one hexadecimal digit. *)
Definition hexval (c : Z) : option Z :=
  if in_range 48 57 c then Some (c - 48)
  else if in_range 97 102 c then Some (c - 97 + 10)
  else if in_range 65 70 c then Some (c - 65 + 10)
  else None.

Fixpoint int16_acc (acc : Z) (bs : list byte) : option Z :=
  match bs with
  | [] => Some acc
  | b :: bs' =>
    match hexval (ord b) with
    | Some v => int16_acc (acc * 16 + v) bs'
    | None => None
    end
  end.

(** [int(bs, 16)] on a non-empty run of hexadecimal digits, the only
    arguments the accessors pass once [isHex] has held. Anything else is
    reported as [ValueError]; [mode_no_ValueError] and [pid_no_ValueError]
    show that the accessors never get there. *)
Definition int16 (bs : list byte) : result Z :=
  match bs with
  | [] => Raise ValueError
  | _ => match int16_acc 0 bs with
         | Some v => Ok v
         | None => Raise ValueError
         end
  end.

(** The length of a Python sequence, as a Python integer. *)
Definition len {A} (l : list A) : Z := Z.of_nat (length l).

(** ** Messages and the store *)

Module Message.
(** What the descriptor reads and writes of a message: the ECU tag and the
    payload. [data] is the content of the payload object as the message
    sees it. [buffer] says which object that is where it matters: [Some k]
    for the bytearray object [k], which other messages may hold as well,
    and [None] for a payload that no other message can see change: a
    bytearray that only this message holds, or immutable [bytes]. *)
Record t : Type := mk { ecu : Z; data : list byte; buffer : option nat }.
End Message.

(** References to message objects, and the store that holds the objects.
    Every reference denotes an object, so the store is total. *)
Definition ref : Type := nat.
Definition store : Type := ref -> Message.t.

(** What a call can change: the message objects, and the warnings sent to
    the logger, oldest first. *)
Record state : Type := mkState { heap : store; log : list Text }.

(** ** The monad of method bodies

    A computation runs from a state to a result and a state. A raised
    exception keeps the state reached so far: what was written before the
    [raise] stays written. *)
Definition M (A : Type) : Type := state -> result A * state.

#[global] Instance M_ret : MRet M := fun A a s => (Ok a, s).

#[global] Instance M_bind : MBind M := fun A B k c s =>
  match c s with
  | (Ok a, s') => k a s'
  | (Raise e, s') => (Raise e, s')
  end.

Definition raise {A} (e : exn) : M A := fun s => (Raise e, s).

(** [logger.warning(text)] *)
Definition warning (text : Text) : M unit :=
  fun s => (Ok tt, mkState (heap s) (log s ++ [text])).

(** [if c: body] *)
Definition when (c : bool) (body : M unit) : M unit :=
  if c then body else mret tt.

(** [m.ecu] and [m.data] *)
Definition get_ecu (m : ref) : M Z :=
  fun s => (Ok (Message.ecu (heap s m)), s).

Definition get_data (m : ref) : M (list byte) :=
  fun s => (Ok (Message.data (heap s m)), s).

(** Do the messages [m] and [r] hold the same payload object? A message
    holds its own; two messages hold one when both are tagged with the same
    bytearray. *)
Definition holder (h : store) (m r : ref) : bool :=
  (m =? r)%nat ||
  match Message.buffer (h m), Message.buffer (h r) with
  | Some k, Some k' => (k =? k')%nat
  | _, _ => false
  end.

(** [m.data = d] for a payload [d] just made (a slice): the message object
    behind [m] changes, for every holder of the reference [m]; it now holds
    an object that no other message holds. *)
Definition set_data (m : ref) (d : list byte) : M unit :=
  fun s =>
    (Ok tt,
     mkState (<[m := Message.mk (Message.ecu (heap s m)) d None]> (heap s))
             (log s)).

(** [m.data += ...], where the content [d] of the payload object becomes
    [f d]. A bytearray is changed in place: every message that holds it
    sees the new content. (Immutable [bytes] are replaced by a new object,
    which only [m] holds: the case of [buffer = None].) *)
Definition update_data (m : ref) (f : list byte -> list byte) : M unit :=
  fun s =>
    (Ok tt,
     mkState
       (fun r =>
          if holder (heap s) m r
          then Message.mk (Message.ecu (heap s r))
                 (f (Message.data (heap s r)))
                 (Message.buffer (heap s r))
          else heap s r)
       (log s)).

(** The objects behind a list of references, as they are now. *)
Definition deref (ms : list ref) : M (list Message.t) :=
  fun s => (Ok (map (heap s) ms), s).

(** [for m in ms: body(m)] *)
Fixpoint for_each (body : ref -> M unit) (ms : list ref) : M unit :=
  match ms with
  | [] => mret tt
  | m :: ms' => body m;; for_each body ms'
  end.

(** [list(filter(p, ms))] for a predicate that reads the objects. *)
Fixpoint filterM (p : ref -> M bool) (ms : list ref) : M (list ref) :=
  match ms with
  | [] => mret []
  | m :: ms' =>
    keep ← p m;
    rest ← filterM p ms';
    mret (if keep : bool then m :: rest else rest)
  end.

(** ** The response and the descriptor *)

Module OBDResponse.
(** [OBDResponse(command, messages)]; [value] starts as [None]. The command
    is kept as the value of the descriptor. [value] is a Python value:
    [None] is Python's [None], whether the slot was never assigned or was
    assigned a result that is [None]. *)
Record t {C V : Type} : Type :=
  mk { command : C; messages : list ref; value : option V }.
Arguments t : clear implicits.
End OBDResponse.

Module OBDCommand.
Record t {V : Type} : Type := mk {
  name    : string;
  desc    : string;
  command : list byte;
  bytes   : Z;
  decode  : list Message.t -> option V;
  ecu     : Z;
  fast    : bool;
  frames  : option Z;
  strict  : bool
}.
Arguments t : clear implicits.
End OBDCommand.

Section Command.
Context {V : Type}.
Local Abbreviation Command := (OBDCommand.t V).
Local Abbreviation Response := (OBDResponse.t Command V).

(** The fields of the object that [clone] makes: the constructor is called
    with the nine fields of [self]. The object itself is made by
    [clone_object]. *)
Definition clone (self : Command) : Command :=
  OBDCommand.mk V
    (OBDCommand.name self)
    (OBDCommand.desc self)
    (OBDCommand.command self)
    (OBDCommand.bytes self)
    (OBDCommand.decode self)
    (OBDCommand.ecu self)
    (OBDCommand.fast self)
    (OBDCommand.frames self)
    (OBDCommand.strict self).

(** [long_enough and isHex(command.decode())], with the short-circuit of
    [and]: a command that is too short is not decoded. *)
Definition hex_guard (long_enough : bool) (command : list byte)
  : result bool :=
  if long_enough then
    match utf8_decode command with
    | Some text => Ok (isHex text)
    | None => Raise UnicodeDecodeError
    end
  else Ok false.

Definition mode (self : Command) : result (option Z) :=
  let command := OBDCommand.command self in
  match hex_guard (2 <=? len command) command with
  | Raise e => Raise e
  | Ok true =>
    match int16 (take 2 command) with
    | Ok v => Ok (Some v)
    | Raise e => Raise e
    end
  | Ok false => Ok None
  end.

Definition pid (self : Command) : result (option Z) :=
  let command := OBDCommand.command self in
  match hex_guard (2 <? len command) command with
  | Raise e => Raise e
  | Ok true =>
    match int16 (drop 2 command) with
    | Ok v => Ok (Some v)
    | Raise e => Raise e
    end
  | Ok false => Ok None
  end.

(** [__str__]: ["%s: %s" % (self.command, self.desc)], kept as the pair of
    its arguments. *)
Definition __str__ (self : Command) : list byte * string :=
  (OBDCommand.command self, OBDCommand.desc self).

(** Pads or chops the data field to the size specified by this command. *)
Definition __constrain_message_data (self : Command) (message : ref)
  : M unit :=
  let bytes := OBDCommand.bytes self in
  when (0 <? bytes) (
    data ← get_data message;
    if bytes <? len data then
      when (OBDCommand.strict self)
        (raise (OBDError
           (LongerThanExpected (__str__ self) (len data) bytes)));;
      (* chop off the right side *)
      set_data message (take (Z.to_nat bytes) data);;
      data ← get_data message;
      warning (LongerTrimmed (__str__ self) data)
    else if len data <? bytes then
      when (OBDCommand.strict self)
        (raise (OBDError
           (ShorterThanExpected (__str__ self) (len data) bytes)));;
      (* pad the right with zeros *)
      update_data message
        (fun data => data ++ replicate (Z.to_nat (bytes - len data)) x00);;
      data ← get_data message;
      warning (ShorterPadded (__str__ self) data)
    else mret tt).

(** [for_us = lambda m: (self.ecu & m.ecu) > 0] *)
Definition for_us (self : Command) (m : ref) : M bool :=
  ecu ← get_ecu m;
  mret (0 <? Z.land (OBDCommand.ecu self) ecu).

Definition __call__ (self : Command) (messages : list ref) : M Response :=
  (* filter for applicable messages (from the right ECU(s)) *)
  messages ← filterM (for_us self) messages;
  match OBDCommand.frames self with
  | None => mret tt
  | Some frames =>
    when (negb (frames =? len messages)) (
      let text := ExpectedFrames (__str__ self) frames (len messages) in
      when (OBDCommand.strict self) (raise (OBDError text));;
      warning text)
  end;;
  (* guarantee data size for the decoder *)
  for_each (__constrain_message_data self) messages;;
  (* create the response object with the raw data received *)
  let r := OBDResponse.mk Command V self messages None in
  match messages with
  | _ :: _ =>
    objects ← deref messages;
    mret (OBDResponse.mk Command V
            (OBDResponse.command r) (OBDResponse.messages r)
            (OBDCommand.decode self objects))
  | [] =>
    warning (NoAcceptableMessages (__str__ self));;
    mret r
  end.

(** ** Identity: [__eq__] and [__hash__] *)

(** [a == b] on [bytes]. *)
Fixpoint bytes_eqb (a b : list byte) : bool :=
  match a, b with
  | [], [] => true
  | x :: a', y :: b' => Byte.eqb x y && bytes_eqb a' b'
  | _, _ => false
  end.

(** The values [__eq__] may be handed: a descriptor, or something else. *)
Inductive object : Type :=
| an_OBDCommand (c : Command)
| a_bytes (b : list byte)
| a_str (s : string)
| an_int (z : Z)
| none.

Definition __eq__ (self : Command) (other : object) : bool :=
  match other with
  | an_OBDCommand other =>
    bytes_eqb (OBDCommand.command self) (OBDCommand.command other)
  | _ => false
  end.

(** [hash(self.command)]. Python's [hash] of a [bytes] value is some function
    of the content, fixed for the life of the process: the argument [hash]. *)
Definition __hash__ (hash : list byte -> Z) (self : Command) : Z :=
  hash (OBDCommand.command self).

(** ** Pure readings of the steps, used to state the properties *)

(** The messages the attribution filter keeps, in a store [h]. *)
Definition relevant (self : Command) (h : store) (ms : list ref) : list ref :=
  filter (fun m => Z.land (OBDCommand.ecu self) (Message.ecu (h m)) > 0) ms.

(** The first message of a batch whose payload is not [n] bytes long. *)
Definition first_mismatch (n : Z) (h : store) (ms : list ref) : option ref :=
  List.find (fun m => negb (len (Message.data (h m)) =? n)) ms.

(** What lenient normalisation to [n] bytes makes of a payload. *)
Definition normalise (n : Z) (data : list byte) : list byte :=
  if n <? len data then take (Z.to_nat n) data
  else if len data <? n then data ++ replicate (Z.to_nat (n - len data)) x00
  else data.

(** The text of the error strict mode raises for a payload [data] that is
    not [bytes] long. *)
Definition payload_error (self : Command) (data : list byte) : Text :=
  let bytes := OBDCommand.bytes self in
  if bytes <? len data
  then LongerThanExpected (__str__ self) (len data) bytes
  else ShorterThanExpected (__str__ self) (len data) bytes.

(** [self.frames != None and self.frames != len(messages)] *)
Definition frames_differ (self : Command) (messages : list ref) : bool :=
  match OBDCommand.frames self with
  | Some frames => negb (frames =? len messages)
  | None => false
  end.

(** The text of the frame-count error and warning for [got] messages, where
    a frame count is expected. *)
Definition frames_text (self : Command) (got : Z) : Text :=
  ExpectedFrames (__str__ self) (default 0 (OBDCommand.frames self)) got.

(** The base-16 integer value of a text, as the spec words it: the digits
    of the text read most significant first. *)
Definition base16 (text : list Z) : Z :=
  fold_left (fun acc c => acc * 16 + default 0 (hexval c)) text 0.

(** The decoded value of a result, whatever else the response holds. *)
Definition value_of (r : result Response) : result (option V) :=
  match r with
  | Ok r => Ok (OBDResponse.value r)
  | Raise e => Raise e
  end.

(** ** Descriptor objects *)

(** [OBDCommand(...)] makes a new descriptor object. The objects made so
    far are kept in the order they were made, and a reference to one is its
    place in that order: the new object gets a place that no object had. *)
Definition new_OBDCommand (fields : Command) (objects : list Command)
  : nat * list Command :=
  (length objects, objects ++ [fields]).

(** [clone] as the method of the object behind the reference [self]: it
    reads the nine fields and makes a new object of them. [None] is for a
    reference without an object, which a Python program cannot hold. *)
Definition clone_object (self : nat) (objects : list Command)
  : option (nat * list Command) :=
  match objects !! self with
  | Some fields => Some (new_OBDCommand (clone fields) objects)
  | None => None
  end.

(** ** Construction *)

(** [__init__]: the five positional fields and the four keyword arguments
    with their defaults. A keyword argument left out is [None] here; for
    [frames], whose default is [None], leaving it out and passing [None]
    are the same. [ECU.ALL] of [obd/protocols.py] is not among the sources:
    it is the argument [ECU_ALL]. *)
Definition __init__ (ECU_ALL : Z)
    (name desc : string) (command : list byte) (_bytes : Z)
    (decoder : list Message.t -> option V)
    (ecu : option Z) (fast : option bool) (frames : option Z)
    (strict : option bool) : Command :=
  OBDCommand.mk V name desc command _bytes decoder
    (default ECU_ALL ecu) (default false fast) frames (default false strict).

(** ** Pure readings of the warnings *)

(** The warning lenient mode logs for a payload [data] as it brings it to
    the expected size: none for a payload of that size, or where no size is
    expected. *)
Definition correction_warning (self : Command) (data : list byte)
  : list Text :=
  let bytes := OBDCommand.bytes self in
  if 0 <? bytes then
    if bytes <? len data
    then [LongerTrimmed (__str__ self) (take (Z.to_nat bytes) data)]
    else if len data <? bytes
    then [ShorterPadded (__str__ self)
            (data ++ replicate (Z.to_nat (bytes - len data)) x00)]
    else []
  else [].

(** The frame-count warning of a lenient call that retains [kept]. *)
Definition frame_warning (self : Command) (kept : list ref) : list Text :=
  match OBDCommand.frames self with
  | Some frames =>
    if frames =? len kept then []
    else [ExpectedFrames (__str__ self) frames (len kept)]
  | None => []
  end.

(** The closing warning of a call that retains [kept]. *)
Definition empty_warning (self : Command) (kept : list ref) : list Text :=
  match kept with
  | [] => [NoAcceptableMessages (__str__ self)]
  | _ :: _ => []
  end.

(** ** Pure readings of the store *)

(** A store is consistent when the messages that hold one payload object
    see one content. The stores of a Python program are. *)
Definition consistent (h : store) : Prop :=
  forall m r,
    holder h m r = true -> Message.data (h m) = Message.data (h r).

(** No two messages of [ms] hold one payload object. *)
Definition apart (h : store) (ms : list ref) : Prop :=
  forall m m', m ∈ ms -> m' ∈ ms -> m <> m' -> holder h m m' = false.

(** A payload followed by the zero bytes that bring it to [n] bytes. *)
Definition pad (n : Z) (data : list byte) : list byte :=
  data ++ replicate (Z.to_nat (n - len data)) x00.

(** The message behind [r] after the lenient loop has gone over [ms] in a
    store [h], for an expected size [n]: cut to [n] bytes, and then the
    only holder of its payload, if it is in [ms] and too long; padded to
    [n] bytes if a message of [ms] that is too short holds its payload;
    else as it was. *)
Definition lenient_message (n : Z) (h : store) (ms : list ref) (r : ref)
  : Message.t :=
  if decide (r ∈ ms /\ n < len (Message.data (h r))) then
    Message.mk (Message.ecu (h r))
      (take (Z.to_nat n) (Message.data (h r))) None
  else if decide (Exists (fun m => holder h m r = true /\
                                    len (Message.data (h m)) < n) ms) then
    Message.mk (Message.ecu (h r))
      (pad n (Message.data (h r))) (Message.buffer (h r))
  else h r.

(** The descriptor a text names: the first argument of its template. *)
Definition text_cmd (text : Text) : list byte * string :=
  match text with
  | ExpectedFrames cmd _ _ => cmd
  | LongerThanExpected cmd _ _ => cmd
  | LongerTrimmed cmd _ => cmd
  | ShorterThanExpected cmd _ _ => cmd
  | ShorterPadded cmd _ => cmd
  | NoAcceptableMessages cmd => cmd
  end.

(** A payload is as the descriptor expects it: of the expected size, or no
    size is expected. *)
Definition conforms (self : Command) (data : list byte) : Prop :=
  0 < OBDCommand.bytes self -> len data = OBDCommand.bytes self.

End Command.

(** ** Sample descriptors and stores *)

(** A decoder that hands back the payloads it was given. *)
Definition payloads (ms : list Message.t) : option (list (list byte)) :=
  Some (map Message.data ms).

(** Engine RPM, [0x010C]: two bytes from the engine ECU ([0b10]). *)
Definition rpm (frames : option Z) (strict : bool)
  : OBDCommand.t (list (list byte)) :=
  OBDCommand.mk _ "RPM" "Engine RPM" (list_byte_of_string "010C") 2
    payloads 2 true frames strict.

(** The same request, expecting four bytes. *)
Definition rpm4 (frames : option Z) (strict : bool)
  : OBDCommand.t (list (list byte)) :=
  OBDCommand.mk _ "RPM" "Engine RPM" (list_byte_of_string "010C") 4
    payloads 2 true frames strict.

(** A descriptor that normalises nothing. *)
Definition raw (strict : bool) : OBDCommand.t (list (list byte)) :=
  OBDCommand.mk _ "RAW" "Raw frames" (list_byte_of_string "0902") 0
    payloads 255 false None strict.

(** A descriptor whose command is not text. *)
Definition garbled : OBDCommand.t (list (list byte)) :=
  OBDCommand.mk _ "BAD" "Not text" [xff; xff; xff] 0
    payloads 255 false None false.

(** Three message objects: engine with two bytes, transmission with five,
    engine with three; every other reference is an empty message from no
    ECU. *)
Definition garage : store := fun r =>
  match r with
  | 0%nat => Message.mk 2 [x41; x0c] None
  | 1%nat => Message.mk 4 [x41; x0c; x1a; xf8; x00] None
  | 2%nat => Message.mk 2 [x41; x0c; x1a] None
  | _ => Message.mk 0 [] None
  end.

Definition start : state := mkState garage [].

(** Four message objects, three of which hold the bytearray 7, of two
    bytes: two of the engine and one of the transmission; the fourth, of
    the engine, holds three bytes of its own. *)
Definition depot : store := fun r =>
  match r with
  | 0%nat => Message.mk 2 [x41; x0c] (Some 7%nat)
  | 1%nat => Message.mk 2 [x41; x0c] (Some 7%nat)
  | 2%nat => Message.mk 4 [x41; x0c] (Some 7%nat)
  | 3%nat => Message.mk 2 [x41; x0c; x1a] None
  | _ => Message.mk 0 [] None
  end.

Definition depot_start : state := mkState depot [].

(** A descriptor that listens to no ECU. *)
Definition deaf (strict : bool) : OBDCommand.t (list (list byte)) :=
  OBDCommand.mk _ "DEAF" "No ECU" (list_byte_of_string "0100") 4
    payloads 0 false None strict.

(** ** Running computations *)

Section Properties.
Context {V : Type}.
Local Abbreviation Command := (OBDCommand.t V).
Local Abbreviation Response := (OBDResponse.t Command V).
Implicit Types (self : Command) (m : ref) (ms : list ref) (s : state).

Ltac run :=
  unfold mbind, M_bind, mret, M_ret, when, raise, warning,
    get_data, get_ecu, set_data, update_data, deref in *; simpl in *.

Lemma bind_Ok {A B} (c : M A) (k : A -> M B) s a s' :
  c s = (Ok a, s') -> (c ≫= k) s = k a s'.
Proof. intros E. unfold mbind, M_bind. by rewrite E. Qed.

Lemma bind_Raise {A B} (c : M A) (k : A -> M B) s e s' :
  c s = (Raise e, s') -> (c ≫= k) s = (Raise e, s').
Proof. intros E. unfold mbind, M_bind. by rewrite E. Qed.

(** The attribution filter reads the store, changes nothing and cannot
    raise. *)
Lemma for_us_run self m s :
  for_us self m s =
    (Ok (0 <? Z.land (OBDCommand.ecu self) (Message.ecu (heap s m))), s).
Proof. done. Qed.

Lemma filterM_for_us self ms s :
  filterM (for_us self) ms s = (Ok (relevant self (heap s) ms), s).
Proof.
  unfold relevant. induction ms as [|m ms IH]; [done|].
  cbn [filterM]. erewrite bind_Ok by apply for_us_run.
  erewrite bind_Ok by apply IH. unfold mret, M_ret.
  rewrite filter_cons. case_decide as Hm.
  - by replace (0 <? _) with true by (symmetry; apply Z.ltb_lt; lia).
  - by replace (0 <? _) with false by (symmetry; apply Z.ltb_ge; lia).
Qed.

(** *** One message *)

Lemma constrain_off self m s :
  OBDCommand.bytes self <= 0 ->
  __constrain_message_data self m s = (Ok tt, s).
Proof.
  intros H. unfold __constrain_message_data. run.
  by replace (0 <? _) with false by (symmetry; apply Z.ltb_ge; lia).
Qed.

(** In strict mode a message is checked, never written. *)
Lemma constrain_strict self m s :
  OBDCommand.strict self = true ->
  let n := OBDCommand.bytes self in
  let d := Message.data (heap s m) in
  __constrain_message_data self m s =
    (if (0 <? n) && negb (len d =? n)
     then Raise (OBDError (payload_error self d))
     else Ok tt, s).
Proof.
  intros Hs n d. subst n d. unfold __constrain_message_data, payload_error.
  run.
  rewrite Hs. destruct (0 <? _); [|done]. simpl.
  generalize (OBDCommand.bytes self) as n.
  generalize (Message.data (heap s m)) as d. intros d n.
  destruct (Z.ltb_spec n (len d)), (Z.ltb_spec (len d) n),
    (Z.eqb_spec (len d) n); simpl; try done; lia.
Qed.

(** *** Holders of a payload *)

Lemma holder_refl h m : holder h m m = true.
Proof. unfold holder. by rewrite Nat.eqb_refl. Qed.

Lemma holder_sym h m r : holder h m r = holder h r m.
Proof.
  unfold holder. rewrite (Nat.eqb_sym m r).
  destruct (Message.buffer (h m)), (Message.buffer (h r)); try done.
  f_equal. apply Nat.eqb_sym.
Qed.

Lemma holder_trans h x m r :
  holder h x m = true -> holder h m r = true -> holder h x r = true.
Proof.
  unfold holder. intros H1 H2.
  destruct (Nat.eqb_spec x m) as [->|]; [done|].
  destruct (Nat.eqb_spec m r) as [<-|]; simpl in *.
  { by destruct (Nat.eqb_spec x m). }
  apply orb_true_iff. right.
  destruct (Message.buffer (h x)), (Message.buffer (h m)),
    (Message.buffer (h r)); try done.
  apply Nat.eqb_eq in H1, H2. apply Nat.eqb_eq. congruence.
Qed.

(** Whether two messages hold one payload is read off their tags. *)
Lemma holder_ext h h' m r :
  Message.buffer (h' m) = Message.buffer (h m) ->
  Message.buffer (h' r) = Message.buffer (h r) ->
  holder h' m r = holder h m r.
Proof. unfold holder. by intros -> ->. Qed.

(** In lenient mode a message is brought to [n] bytes and nothing is
    raised. A payload that is too long is replaced by its first [n] bytes,
    for this message alone; a payload that is too short is extended in
    place, for every message that holds it. *)
Lemma constrain_lenient self m s :
  OBDCommand.strict self = false ->
  0 < OBDCommand.bytes self ->
  exists s',
    __constrain_message_data self m s = (Ok tt, s') /\
    (exists extra, log s' = log s ++ extra) /\
    forall r,
      heap s' r =
        if decide (OBDCommand.bytes self < len (Message.data (heap s m)))
        then
          if decide (r = m)
          then Message.mk (Message.ecu (heap s m))
                 (take (Z.to_nat (OBDCommand.bytes self))
                    (Message.data (heap s m))) None
          else heap s r
        else if decide (len (Message.data (heap s m)) <
                        OBDCommand.bytes self)
        then
          if holder (heap s) m r
          then Message.mk (Message.ecu (heap s r))
                 (pad (OBDCommand.bytes self) (Message.data (heap s r)))
                 (Message.buffer (heap s r))
          else heap s r
        else heap s r.
Proof.
  intros Hs Hn. unfold __constrain_message_data. run. rewrite Hs.
  replace (0 <? _) with true by (symmetry; by apply Z.ltb_lt).
  remember (OBDCommand.bytes self) as n eqn:En.
  remember (Message.data (heap s m)) as d eqn:Ed.
  destruct (Z.ltb_spec n (len d)) as [H1|H1];
    [|destruct (Z.ltb_spec (len d) n) as [H2|H2]]; simpl;
    eexists; (split; [reflexivity|]); simpl;
    (split; [first [by eexists | by exists []; rewrite app_nil_r]|]);
    intros r.
  - rewrite decide_True by done. unfold insert, fn_insert.
    repeat case_decide; by subst.
  - rewrite decide_False by lia. by rewrite decide_True by done.
  - rewrite decide_False by lia. by rewrite decide_False by lia.
Qed.

(** *** The payloads *)

Lemma normalise_len n d : 0 <= n -> len (normalise n d) = n.
Proof.
  intros Hn. unfold normalise.
  destruct (Z.ltb_spec n (len d)) as [H|H];
    [|destruct (Z.ltb_spec (len d) n) as [H'|H']]; unfold len in *.
  - rewrite length_take. lia.
  - rewrite length_app, length_replicate. lia.
  - lia.
Qed.

Lemma normalise_fixed n d : len d = n -> normalise n d = d.
Proof.
  intros H. unfold normalise. rewrite H.
  by rewrite Z.ltb_irrefl.
Qed.

Lemma normalise_idem n d :
  0 <= n -> normalise n (normalise n d) = normalise n d.
Proof. intros Hn. by apply normalise_fixed, normalise_len. Qed.

(** *** The loop over the retained messages *)

Lemma for_each_off self ms s :
  OBDCommand.bytes self <= 0 ->
  for_each (__constrain_message_data self) ms s = (Ok tt, s).
Proof.
  intros H. induction ms as [|m ms IH]; [done|].
  cbn [for_each]. erewrite bind_Ok by by apply constrain_off. done.
Qed.

(** In strict mode the loop stops at the first payload of the wrong length
    and has written nothing. *)
Lemma for_each_strict self ms s :
  OBDCommand.strict self = true ->
  0 < OBDCommand.bytes self ->
  for_each (__constrain_message_data self) ms s =
    (match first_mismatch (OBDCommand.bytes self) (heap s) ms with
     | Some m =>
       Raise (OBDError (payload_error self (Message.data (heap s m))))
     | None => Ok tt
     end, s).
Proof.
  intros Hs Hn. unfold first_mismatch.
  induction ms as [|m ms IH]; [done|].
  cbn [for_each List.find].
  pose proof (constrain_strict self m s Hs) as Hc. cbv zeta in Hc.
  replace (0 <? _) with true in Hc by (symmetry; by apply Z.ltb_lt).
  destruct (negb _); simpl in Hc.
  - by erewrite bind_Raise by apply Hc.
  - by erewrite bind_Ok by apply Hc.
Qed.

(** *** Padding *)

Lemma pad_ge n d : n <= len d -> pad n d = d.
Proof.
  intros H. unfold pad.
  replace (Z.to_nat (n - len d)) with 0%nat by lia. apply app_nil_r.
Qed.

Lemma pad_len n d : len d <= n -> len (pad n d) = n.
Proof.
  intros H. unfold pad, len in *. rewrite length_app, length_replicate. lia.
Qed.

Lemma pad_pad n d : pad n (pad n d) = pad n d.
Proof.
  destruct (Z.le_gt_cases n (len d)) as [H|H].
  - by rewrite !(pad_ge n d H).
  - apply pad_ge. rewrite pad_len; lia.
Qed.

Lemma normalise_pad n d : len d <= n -> normalise n d = pad n d.
Proof.
  intros H. unfold normalise.
  replace (n <? len d) with false by (symmetry; apply Z.ltb_ge; lia).
  destruct (Z.ltb_spec (len d) n); [done|]. symmetry. apply pad_ge. lia.
Qed.

(** *** The store after the lenient loop *)

Lemma lenient_message_ext n h l1 l2 r :
  (r ∈ l1 /\ n < len (Message.data (h r)) <->
   r ∈ l2 /\ n < len (Message.data (h r))) ->
  (Exists (fun m => holder h m r = true /\ len (Message.data (h m)) < n) l1
   <->
   Exists (fun m => holder h m r = true /\ len (Message.data (h m)) < n) l2)
  ->
  lenient_message n h l1 r = lenient_message n h l2 r.
Proof.
  intros H1 H2. unfold lenient_message.
  rewrite (decide_ext _ _ _ _ H1). case_decide; [done|].
  by rewrite (decide_ext _ _ _ _ H2).
Qed.

(** It depends on the messages that are in the batch, not on their order
    or number. *)
Lemma lenient_message_equiv n h l1 l2 r :
  (forall m, m ∈ l1 <-> m ∈ l2) ->
  lenient_message n h l1 r = lenient_message n h l2 r.
Proof.
  intros H. apply lenient_message_ext; [by rewrite H|].
  rewrite !Exists_exists. by setoid_rewrite H.
Qed.

Lemma lenient_message_ecu n h ms r :
  Message.ecu (lenient_message n h ms r) = Message.ecu (h r).
Proof. unfold lenient_message. by repeat case_decide. Qed.

(** A message of the batch is normalised. *)
Lemma lenient_message_retained n h ms r :
  0 <= n -> r ∈ ms ->
  Message.data (lenient_message n h ms r) = normalise n (Message.data (h r)).
Proof.
  intros Hn Hr. unfold lenient_message. case_decide as H1.
  - simpl. unfold normalise.
    by replace (n <? _) with true by (symmetry; apply Z.ltb_lt; tauto).
  - assert (len (Message.data (h r)) <= n) as Hle by (apply Z.nlt_ge; tauto).
    rewrite normalise_pad by done. case_decide as H2; [done|].
    destruct (Z.le_gt_cases n (len (Message.data (h r)))) as [H|H].
    + by rewrite pad_ge.
    + destruct H2. apply Exists_exists. exists r.
      by rewrite holder_refl.
Qed.

(** A message outside the batch that holds no payload together with a
    message of the batch is as it was. *)
Lemma lenient_message_apart n h ms r :
  r ∉ ms -> (forall m, m ∈ ms -> holder h m r = false) ->
  lenient_message n h ms r = h r.
Proof.
  intros Hr Hh. unfold lenient_message.
  rewrite decide_False by tauto. rewrite decide_False; [done|].
  rewrite Exists_exists. intros (m & Hm & Hhold & _).
  rewrite (Hh m Hm) in Hhold. done.
Qed.

(** Who holds a payload together after the loop: who did before, the
    messages cut apart. *)
Lemma holder_lenient n h0 done (h : store) m r :
  (forall x, h x = lenient_message n h0 done x) ->
  Message.buffer (h m) = Message.buffer (h0 m) ->
  holder h m r = true <->
  holder h0 m r = true /\
  (m = r \/ ~ (r ∈ done /\ n < len (Message.data (h0 r)))).
Proof.
  intros Hag Hb. unfold holder.
  destruct (Nat.eqb_spec m r) as [->|Hne]; simpl; [tauto|].
  rewrite Hb, (Hag r). unfold lenient_message.
  destruct (decide (r ∈ done /\ n < len (Message.data (h0 r)))) as [Hc|Hc];
    simpl.
  - destruct (Message.buffer (h0 m)); split; try done; tauto.
  - assert (forall b : bool, b = true <-> b = true /\ (m = r \/ ~ False))
      as Hb' by (intros b; tauto).
    case_decide; simpl; split; try tauto.
Qed.

(** One step of the loop, from a store that the loop has brought about. *)
Lemma lenient_step self m done h0 s :
  OBDCommand.strict self = false ->
  0 < OBDCommand.bytes self ->
  (forall r, heap s r = lenient_message (OBDCommand.bytes self) h0 done r) ->
  exists s',
    __constrain_message_data self m s = (Ok tt, s') /\
    (exists extra, log s' = log s ++ extra) /\
    forall r,
      heap s' r = lenient_message (OBDCommand.bytes self) h0 (m :: done) r.
Proof.
  intros Hs Hn Hag.
  destruct (constrain_lenient self m s Hs Hn) as (s' & E & L & H').
  exists s'. split; [done|]. split; [done|]. intros r. rewrite H'. clear H' E L.
  set (n := OBDCommand.bytes self) in *.
  set (P := fun r => Exists (fun x => holder h0 x r = true /\
                                      len (Message.data (h0 x)) < n) done).
  assert (forall x, P x <-> exists y, y ∈ done /\ holder h0 y x = true /\
                                     len (Message.data (h0 y)) < n) as HP
    by (intros x; apply Exists_exists).
  assert (forall x, x ∈ done -> len (Message.data (h0 x)) < n -> P x) as Hin.
  { intros x Hx Hl. apply HP. exists x. by rewrite holder_refl. }
  (* when the step changes nothing *)
  assert (len (Message.data (heap s m)) = n ->
          (n < len (Message.data (h0 m)) -> m ∈ done) ->
          (len (Message.data (h0 m)) < n -> P m) ->
          (if decide (n < len (Message.data (heap s m)))
           then if decide (r = m)
                then Message.mk (Message.ecu (heap s m))
                       (take (Z.to_nat n) (Message.data (heap s m))) None
                else heap s r
           else if decide (len (Message.data (heap s m)) < n)
                then if holder (heap s) m r
                     then Message.mk (Message.ecu (heap s r))
                            (pad n (Message.data (heap s r)))
                            (Message.buffer (heap s r))
                     else heap s r
                else heap s r) =
          lenient_message n h0 (m :: done) r) as Hsame.
  { intros Hl Hlong Hshort. rewrite !decide_False by lia. rewrite Hag.
    symmetry. apply lenient_message_ext.
    - rewrite elem_of_cons. split; [|tauto].
      intros [[->|?] ?]; [|done]. split; [|done]. by apply Hlong.
    - rewrite Exists_cons. fold (P r). split; [|tauto].
      intros [[Hh Hl0]|?]; [|done]. apply HP.
      destruct (proj1 (HP m) (Hshort Hl0)) as (y & Hy & Hym & Hyl).
      exists y. split; [done|]. split; [|done]. by eapply holder_trans. }
  pose proof (Hag m) as Hm. unfold lenient_message in Hm. fold (P m) in Hm.
  destruct (Z.lt_trichotomy (len (Message.data (h0 m))) n) as [Hc|[Hc|Hc]].
  - (* too short *)
    rewrite decide_False in Hm by lia.
    destruct (decide (P m)) as [HPm|HPm].
    + apply Hsame; [|lia|done].
      rewrite Hm. simpl. apply pad_len. lia.
    + assert (m ∉ done) as Hnd by (intros ?; apply HPm; by apply Hin).
      rewrite Hm. rewrite decide_False by lia. rewrite decide_True by done.
      assert (holder (heap s) m r = true <->
              holder h0 m r = true /\
              ~ (r ∈ done /\ n < len (Message.data (h0 r)))) as Hh.
      { rewrite (holder_lenient n h0 done (heap s) m r Hag)
          by (by rewrite Hm).
        split; [|tauto]. intros [? [<-|?]]; tauto. }
      assert (holder (heap s) m r = true ->
              holder h0 m r = true /\
              ~ (r ∈ done /\ n < len (Message.data (h0 r)))) as Hh1
        by apply Hh.
      assert (holder h0 m r = true ->
              ~ (r ∈ done /\ n < len (Message.data (h0 r))) ->
              holder (heap s) m r = true) as Hh2
        by (intros; by apply Hh).
      clear Hh.
      unfold lenient_message. fold n.
      destruct (decide (r ∈ done /\ n < len (Message.data (h0 r))))
        as [Hcut|Hcut].
      * destruct (holder (heap s) m r) eqn:Hh;
          [destruct (Hh1 eq_refl); tauto|].
        rewrite decide_True by (rewrite elem_of_cons; tauto).
        rewrite (Hag r). unfold lenient_message. by rewrite decide_True.
      * rewrite decide_False.
        2:{ rewrite elem_of_cons. intros [[->|?] ?]; [lia|tauto]. }
        destruct (holder h0 m r) eqn:Hh0.
        -- rewrite (Hh2 eq_refl Hcut).
           rewrite decide_True by (apply Exists_cons; left; by split).
           rewrite (Hag r). unfold lenient_message.
           rewrite decide_False by done.
           destruct (decide (Exists _ done)); simpl;
             [by rewrite pad_pad|done].
        -- destruct (holder (heap s) m r) eqn:Hh;
             [destruct (Hh1 eq_refl); congruence|].
           rewrite (Hag r). unfold lenient_message.
           rewrite decide_False by done.
           apply decide_ext. rewrite Exists_cons. split; [tauto|].
           intros [[? _]|?]; [congruence|done].
  - (* of the expected size *)
    apply Hsame; [|lia|lia]. rewrite Hm.
    rewrite decide_False by lia.
    destruct (decide (P m)); simpl; [rewrite pad_ge; lia|done].
  - (* too long *)
    destruct (decide (m ∈ done)) as [Hd|Hd].
    + rewrite decide_True in Hm by done. apply Hsame; [|done|lia].
      rewrite Hm. simpl. unfold len. rewrite length_take.
      unfold len in Hc. lia.
    + rewrite decide_False in Hm by tauto.
      assert (Message.data (heap s m) = Message.data (h0 m) /\
              Message.ecu (heap s m) = Message.ecu (h0 m)) as [Hdm Hem].
      { rewrite Hm.
        destruct (decide (P m)); simpl; [by rewrite pad_ge by lia|done]. }
      rewrite Hdm, Hem. rewrite decide_True by lia.
      destruct (decide (r = m)) as [->|Hrm].
      * unfold lenient_message. fold n.
        by rewrite decide_True by (rewrite elem_of_cons; split; [by left|lia]).
      * rewrite Hag. symmetry. apply lenient_message_ext.
        -- rewrite elem_of_cons. split; [|tauto]. intros [[?|?] ?]; done.
        -- rewrite Exists_cons. split; [|tauto]. intros [[_ ?]|?]; [lia|done].
Qed.

(** In lenient mode the loop raises nothing and leaves every message as
    [lenient_message] reads it off the store before the loop. *)
Lemma for_each_lenient self ms s :
  OBDCommand.strict self = false ->
  0 < OBDCommand.bytes self ->
  exists s',
    for_each (__constrain_message_data self) ms s = (Ok tt, s') /\
    (exists extra, log s' = log s ++ extra) /\
    forall r, heap s' r = lenient_message (OBDCommand.bytes self) (heap s) ms r.
Proof.
  intros Hs Hn.
  assert (forall ms done h0 s,
    (forall r, heap s r = lenient_message (OBDCommand.bytes self) h0 done r) ->
    exists s',
      for_each (__constrain_message_data self) ms s = (Ok tt, s') /\
      (exists extra, log s' = log s ++ extra) /\
      forall r, heap s' r =
        lenient_message (OBDCommand.bytes self) h0 (rev ms ++ done) r) as Hacc.
  { clear ms s. induction ms as [|m ms IH]; intros done h0 s Hag.
    - exists s. split; [done|]. split; [by exists []; rewrite app_nil_r|done].
    - destruct (lenient_step self m done h0 s Hs Hn Hag)
        as (s1 & E1 & [x1 L1] & H1).
      destruct (IH (m :: done) h0 s1 H1) as (s2 & E2 & [x2 L2] & H2).
      exists s2. cbn [for_each]. erewrite bind_Ok by apply E1.
      split; [done|]. split.
      { exists (x1 ++ x2). by rewrite L2, L1, app_assoc. }
      intros r. rewrite H2. simpl. by rewrite <- app_assoc. }
  destruct (Hacc ms [] (heap s) s) as (s' & E & L & H).
  { intros r. unfold lenient_message.
    rewrite decide_False by (rewrite elem_of_nil; tauto).
    rewrite decide_False; [done|]. by inversion 1. }
  exists s'. split; [done|]. split; [done|]. intros r. rewrite H.
  apply lenient_message_equiv. intros m.
  rewrite app_nil_r, !list_elem_of_In. symmetry. apply List.in_rev.
Qed.

(** *** The call, step by step *)

Lemma call_unfold self ms s :
  let kept := relevant self (heap s) ms in
  let text := frames_text self (len kept) in
  __call__ self ms s =
    if frames_differ self kept && OBDCommand.strict self
    then (Raise (OBDError text), s)
    else
      let s1 := if frames_differ self kept
                then mkState (heap s) (log s ++ [text]) else s in
      match for_each (__constrain_message_data self) kept s1 with
      | (Raise e, s2) => (Raise e, s2)
      | (Ok _, s2) =>
        match kept with
        | [] =>
          (Ok (OBDResponse.mk Command V self [] None),
           mkState (heap s2) (log s2 ++ [NoAcceptableMessages (__str__ self)]))
        | _ :: _ =>
          (Ok (OBDResponse.mk Command V self kept
                 (OBDCommand.decode self (map (heap s2) kept))), s2)
        end
      end.
Proof.
  intros kept text. unfold __call__.
  erewrite bind_Ok by apply filterM_for_us. fold kept.
  subst text. unfold frames_differ, frames_text.
  destruct (OBDCommand.frames self) as [frames|]; simpl;
    [destruct (negb (frames =? len kept))|];
    destruct (OBDCommand.strict self); run;
    try done;
    match goal with
    | |- context [for_each ?f ?l ?st] =>
      destruct (for_each f l st) as [[[]|e] s2]; try done
    end; by destruct kept.
Qed.

(** *** Text *)

Ltac boolZ :=
  repeat match goal with
  | H : _ && _ = true |- _ => apply andb_true_iff in H; destruct H
  | H : _ || _ = true |- _ => apply orb_true_iff in H; destruct H
  | H : (_ <=? _) = true |- _ => apply Z.leb_le in H
  | H : (_ <=? _) = false |- _ => apply Z.leb_gt in H
  | H : (_ =? _) = true |- _ => apply Z.eqb_eq in H
  | H : (_ =? _) = false |- _ => apply Z.eqb_neq in H
  end.

Lemma hexdigit_ascii c : hexdigit c = true -> 48 <= c <= 127.
Proof. unfold hexdigit, in_range. intros H. boolZ; lia. Qed.

Lemma hexdigit_hexval c : hexdigit c = true -> is_Some (hexval c).
Proof.
  unfold hexdigit, hexval. intros H.
  destruct (in_range 48 57 c); [by eexists|].
  destruct (in_range 97 102 c); [by eexists|].
  destruct (in_range 65 70 c); [by eexists|done].
Qed.

(** A text of hexadecimal digits is the bytes it was decoded from, one
    character a byte. *)
Lemma utf8_decode_hex c : forall text,
  utf8_decode c = Some text -> isHex text = true -> text = map ord c.
Proof.
  induction c as [|b0 r0 IH]; intros text Hd Hx.
  - by injection Hd as <-.
  - cbn [utf8_decode] in Hd. cbv zeta in Hd.
    destruct (ord b0 <=? 127) eqn:E0.
    + destruct (utf8_decode r0) as [t|] eqn:Er; [|done].
      injection Hd as <-. simpl in Hx. apply andb_true_iff in Hx as [_ Hx].
      simpl. f_equal. by apply IH.
    + exfalso. unfold cont, in_range in Hd.
      repeat case_match; try done;
        match type of Hd with
        | _ <$> ?o = _ => destruct o; [|done]
        end;
        injection Hd as <-; simpl in Hx;
        apply andb_true_iff in Hx as [Hx _];
        apply hexdigit_ascii in Hx; boolZ; lia.
Qed.

(** The other way round: bytes that are all hexadecimal digits decode. *)
Lemma utf8_decode_of_hex c :
  forallb hexdigit (map ord c) = true -> utf8_decode c = Some (map ord c).
Proof.
  induction c as [|b0 r0 IH]; [done|]. simpl. intros H.
  apply andb_true_iff in H as [H0 H]. apply hexdigit_ascii in H0.
  replace (ord b0 <=? 127) with true by (symmetry; apply Z.leb_le; lia).
  by rewrite IH.
Qed.

Lemma int16_acc_hex c : forall acc,
  forallb hexdigit (map ord c) = true ->
  int16_acc acc c =
    Some (fold_left (fun a x => a * 16 + default 0 (hexval x)) (map ord c) acc).
Proof.
  induction c as [|b r IH]; intros acc H; [done|]. simpl in *.
  apply andb_true_iff in H as [Hb H].
  destruct (hexdigit_hexval _ Hb) as [v ->]. simpl. by apply IH.
Qed.

Lemma int16_hex c :
  c <> [] -> forallb hexdigit (map ord c) = true ->
  int16 c = Ok (base16 (map ord c)).
Proof.
  intros Hc H. unfold int16, base16. rewrite int16_acc_hex by done.
  by destruct c.
Qed.

Lemma forallb_take {A} (p : A -> bool) n l :
  forallb p l = true -> forallb p (take n l) = true.
Proof.
  revert n. induction l as [|x l IH]; intros [|n]; simpl; try done.
  intros H. apply andb_true_iff in H as [-> H]. by apply IH.
Qed.

Lemma forallb_drop {A} (p : A -> bool) n l :
  forallb p l = true -> forallb p (drop n l) = true.
Proof.
  revert n. induction l as [|x l IH]; intros [|n]; simpl; try done.
  intros H. apply andb_true_iff in H as [_ H]. by apply IH.
Qed.

(** The accessors hand [int] nothing but hexadecimal digits, and at least
    one: they never raise [ValueError]. *)
Lemma hex_guard_true long_enough c :
  hex_guard long_enough c = Ok true ->
  long_enough = true /\ forallb hexdigit (map ord c) = true.
Proof.
  unfold hex_guard. destruct long_enough; [|done].
  destruct (utf8_decode c) as [text|] eqn:E; [|done].
  intros [= Hx]. split; [done|]. by rewrite <- (utf8_decode_hex c text).
Qed.

Lemma mode_no_ValueError self : mode self <> Raise ValueError.
Proof.
  unfold mode. cbv zeta.
  generalize (OBDCommand.command self) as c. intros c.
  destruct (hex_guard _ c) as [[|]|e] eqn:E; [|done|].
  - destruct (hex_guard_true _ _ E) as [Hl Hx].
    rewrite int16_hex; [done| |].
    + apply Z.leb_le in Hl. unfold len in Hl.
      destruct c as [|? [|? ?]]; simpl in *; try done; lia.
    + rewrite <- List.firstn_map. by apply forallb_take.
  - unfold hex_guard in E. by repeat case_match; simplify_eq.
Qed.

Lemma pid_no_ValueError self : pid self <> Raise ValueError.
Proof.
  unfold pid. cbv zeta.
  generalize (OBDCommand.command self) as c. intros c.
  destruct (hex_guard _ c) as [[|]|e] eqn:E; [|done|].
  - destruct (hex_guard_true _ _ E) as [Hl Hx].
    rewrite int16_hex; [done| |].
    + apply Z.ltb_lt in Hl. unfold len in Hl.
      destruct c as [|? [|? [|? ?]]]; simpl in *; try done; lia.
    + rewrite <- List.skipn_map. by apply forallb_drop.
  - unfold hex_guard in E. by repeat case_match; simplify_eq.
Qed.

(** *** What a call can come to *)

(** A call either raises an [OBDError], which only strict mode does and
    which leaves the state as it was, or returns a response over the
    retained messages. *)
Lemma call_outcome self ms s :
  (OBDCommand.strict self = true /\
   exists text, __call__ self ms s = (Raise (OBDError text), s)) \/
  (exists r s', __call__ self ms s = (Ok r, s') /\
     OBDResponse.command r = self /\
     OBDResponse.messages r = relevant self (heap s) ms).
Proof.
  rewrite call_unfold. cbv zeta.
  set (kept := relevant self (heap s) ms).
  destruct (OBDCommand.strict self) eqn:Hs.
  - destruct (frames_differ self kept); simpl; [left; eauto|].
    destruct (Z.ltb_spec 0 (OBDCommand.bytes self)) as [Hn|Hn].
    + rewrite for_each_strict by done.
      destruct (first_mismatch _ _ _); [left; eauto|].
      right. destruct kept; eauto.
    + rewrite for_each_off by done. right. destruct kept; eauto.
  - rewrite andb_false_r. right.
    destruct (Z.ltb_spec 0 (OBDCommand.bytes self)) as [Hn|Hn].
    + edestruct for_each_lenient as (s2 & -> & _); [done..|].
      destruct kept; eauto.
    + rewrite for_each_off by done. destruct kept; eauto.
Qed.

Lemma first_mismatch_Some n h ms m :
  m ∈ ms -> len (Message.data (h m)) <> n ->
  exists m', first_mismatch n h ms = Some m' /\
    m' ∈ ms /\ len (Message.data (h m')) <> n.
Proof.
  intros Hm Hl. unfold first_mismatch.
  destruct (List.find _ ms) as [m'|] eqn:E.
  - apply List.find_some in E as [Hin Hp]. exists m'.
    split; [done|]. split; [by apply list_elem_of_In|].
    apply negb_true_iff, Z.eqb_neq in Hp. done.
  - apply List.find_none with (x := m) in E; [|by apply list_elem_of_In].
    apply negb_false_iff, Z.eqb_eq in E. done.
Qed.

Lemma bytes_eqb_eq (a b : list byte) : bytes_eqb a b = true <-> a = b.
Proof.
  revert b. induction a as [|x a IH]; intros [|y b]; simpl; try done.
  rewrite andb_true_iff, IH. split.
  - intros [Hx ->]. by apply Byte.byte_dec_bl in Hx as ->.
  - intros [= -> ->]. split; [by apply Byte.byte_dec_lb|done].
Qed.

(** ** The properties of the specification *)

(** C5: the call retains a message exactly when the bitwise AND of the
    descriptor's ECU mask and the message's ECU tag is greater than zero;
    the retained messages are the input batch with the others struck out, so
    they keep their relative order; the filter step itself returns without
    raising and without writing, and an exception of the call, if any, is
    the [OBDError] of a later strict check. *)
Theorem attribution_filter self ms s :
  filterM (for_us self) ms s =
    (Ok (filter (fun m =>
           Z.land (OBDCommand.ecu self) (Message.ecu (heap s m)) > 0) ms), s)
  /\ (forall m,
        m ∈ relevant self (heap s) ms <->
        m ∈ ms /\ Z.land (OBDCommand.ecu self) (Message.ecu (heap s m)) > 0)
  /\ relevant self (heap s) ms `sublist_of` ms
  /\ match fst (__call__ self ms s) with
     | Ok r => OBDResponse.messages r = relevant self (heap s) ms
     | Raise e =>
       OBDCommand.strict self = true /\ exists text, e = OBDError text
     end.
Proof.
  split; [apply filterM_for_us|].
  split; [intros m; unfold relevant; rewrite list_elem_of_filter; tauto|].
  split; [apply sublist_filter|].
  destruct (call_outcome self ms s) as [[Hs [text ->]]|(r & s' & -> & _ & Hr)];
    simpl; eauto.
Qed.

(** C8: with an expected byte count of 0 a call writes to no message, in
    strict and in lenient mode, whatever the payload lengths and whether the
    call returns or raises. *)
Theorem no_normalisation_without_byte_count self ms s :
  OBDCommand.bytes self = 0 ->
  heap (snd (__call__ self ms s)) = heap s /\
  forall m,
    len (Message.data (heap (snd (__call__ self ms s)) m)) =
    len (Message.data (heap s m)).
Proof.
  intros Hn.
  assert (heap (snd (__call__ self ms s)) = heap s) as E.
  { rewrite call_unfold. cbv zeta.
    destruct (frames_differ self _), (OBDCommand.strict self); simpl;
      try done; rewrite for_each_off by lia;
      by destruct (relevant self (heap s) ms). }
  split; [done|]. intros m. by rewrite E.
Qed.

(** C10: when a call raises, it is a validation error of strict mode, and
    every message object is exactly as it was passed in: the frame-count
    check comes before the loop, and the loop in strict mode raises at the
    first mismatch without having written. *)
Theorem failed_call_writes_nothing self ms s e s' :
  __call__ self ms s = (Raise e, s') ->
  OBDCommand.strict self = true /\
  (exists text, e = OBDError text) /\
  heap s' = heap s /\
  forall m, Message.data (heap s' m) = Message.data (heap s m).
Proof.
  intros E.
  destruct (call_outcome self ms s) as [[Hs [text E']]|(r & s2 & E' & _)];
    rewrite E' in E; [|done].
  injection E as <- <-. eauto.
Qed.

(** C2: in lenient mode with an expected byte count [N > 0] the call
    returns, and every retained message then holds exactly [N] bytes: the
    first [N] bytes of a longer payload, a shorter payload followed by zero
    bytes up to [N], and a payload of [N] bytes as it was. *)
Theorem lenient_call_normalises self ms s N :
  OBDCommand.bytes self = N -> 0 < N -> OBDCommand.strict self = false ->
  exists r s',
    __call__ self ms s = (Ok r, s') /\
    OBDResponse.messages r = relevant self (heap s) ms /\
    forall m, m ∈ OBDResponse.messages r ->
      len (Message.data (heap s' m)) = N /\
      (N < len (Message.data (heap s m)) ->
       Message.data (heap s' m) = take (Z.to_nat N) (Message.data (heap s m)))
      /\
      (len (Message.data (heap s m)) < N ->
       Message.data (heap s' m) =
         Message.data (heap s m) ++
         replicate (Z.to_nat (N - len (Message.data (heap s m)))) x00)
      /\
      (len (Message.data (heap s m)) = N ->
       Message.data (heap s' m) = Message.data (heap s m)).
Proof.
  intros HN Hpos Hs. subst N.
  assert (exists r s',
    __call__ self ms s = (Ok r, s') /\
    OBDResponse.messages r = relevant self (heap s) ms /\
    forall m, m ∈ relevant self (heap s) ms ->
      Message.data (heap s' m) =
      normalise (OBDCommand.bytes self) (Message.data (heap s m)))
    as (r & s' & E & Hr & Hd).
  { rewrite call_unfold. cbv zeta. rewrite Hs, andb_false_r.
    set (kept := relevant self (heap s) ms).
    set (s1 := if frames_differ self kept then _ else s).
    assert (heap s1 = heap s) as E1
      by (subst s1; by destruct (frames_differ _ _)).
    destruct (for_each_lenient self kept s1 Hs Hpos) as (s2 & -> & _ & H2).
    assert (forall m, m ∈ kept -> Message.data (heap s2 m) =
      normalise (OBDCommand.bytes self) (Message.data (heap s m))) as H.
    { intros m Hm. rewrite H2, E1.
      apply lenient_message_retained; [lia|done]. }
    destruct kept; eauto 10. }
  exists r, s'. split; [done|]. split; [done|].
  intros m Hm. rewrite Hr in Hm. rewrite (Hd m Hm).
  split; [apply normalise_len; lia|]. unfold normalise.
  destruct (Z.ltb_spec (OBDCommand.bytes self) (len (Message.data (heap s m))));
    [|destruct (Z.ltb_spec (len (Message.data (heap s m)))
                 (OBDCommand.bytes self))];
    repeat split; intros; try done; lia.
Qed.

(** C1, as the code has it: with an expected frame count of 1 and no
    message retained, a lenient call returns a response over no messages
    whose value is absent, having warned first of the frame count (1
    expected, 0 got) and then that no acceptable message was received, and
    it writes to no message; a strict call raises the frame-count error
    instead. *)
Theorem no_relevant_messages self ms s :
  OBDCommand.frames self = Some 1 ->
  relevant self (heap s) ms = [] ->
  (OBDCommand.strict self = false ->
   __call__ self ms s =
     (Ok (OBDResponse.mk Command V self [] None),
      mkState (heap s)
        (log s ++ [ExpectedFrames (__str__ self) 1 0;
                   NoAcceptableMessages (__str__ self)]))) /\
  (OBDCommand.strict self = true ->
   __call__ self ms s =
     (Raise (OBDError (ExpectedFrames (__str__ self) 1 0)), s)).
Proof.
  intros Hf Hk. rewrite call_unfold. cbv zeta.
  unfold frames_differ, frames_text. rewrite Hf, Hk. simpl.
  split; intros ->; simpl; [|done].
  by rewrite <- app_assoc.
Qed.

(** C3, as the code has it: in strict mode with an expected byte count
    [N > 0], a call with a retained message whose payload is not [N] bytes
    long raises an [OBDError], returns no response and leaves the state as
    it was. When the frame-count check fails, the error is the frame-count
    error. Otherwise it is the payload error of the first retained message
    of the wrong length: "longer than expected" or "shorter than expected",
    with the descriptor's text, the actual length and [N]. *)
Theorem strict_payload_mismatch self ms s N m :
  OBDCommand.bytes self = N -> 0 < N -> OBDCommand.strict self = true ->
  m ∈ relevant self (heap s) ms ->
  len (Message.data (heap s m)) <> N ->
  exists text,
    __call__ self ms s = (Raise (OBDError text), s) /\
    (frames_differ self (relevant self (heap s) ms) = true ->
     exists F,
       OBDCommand.frames self = Some F /\
       F <> len (relevant self (heap s) ms) /\
       text = ExpectedFrames (__str__ self) F
                (len (relevant self (heap s) ms))) /\
    (frames_differ self (relevant self (heap s) ms) = false ->
     exists m',
       first_mismatch N (heap s) (relevant self (heap s) ms) = Some m' /\
       m' ∈ relevant self (heap s) ms /\
       (N < len (Message.data (heap s m')) ->
        text = LongerThanExpected (__str__ self)
                 (len (Message.data (heap s m'))) N) /\
       (len (Message.data (heap s m')) < N ->
        text = ShorterThanExpected (__str__ self)
                 (len (Message.data (heap s m'))) N) /\
       len (Message.data (heap s m')) <> N).
Proof.
  intros HN Hpos Hs Hm Hl. subst N. rewrite call_unfold. cbv zeta.
  rewrite Hs, andb_true_r.
  destruct (frames_differ self _) eqn:Hf.
  - eexists. split; [done|]. split; [|done]. intros _.
    unfold frames_differ, frames_text in *.
    destruct (OBDCommand.frames self) as [F|]; [|done].
    exists F. split; [done|]. split; [|done].
    by apply negb_true_iff, Z.eqb_neq in Hf.
  - rewrite for_each_strict by done.
    destruct (first_mismatch_Some _ _ _ _ Hm Hl) as (m' & -> & Hin & Hl').
    eexists. split; [done|]. split; [done|]. intros _.
    exists m'. split; [done|]. split; [done|]. unfold payload_error.
    destruct (Z.ltb_spec (OBDCommand.bytes self)
                (len (Message.data (heap s m'))));
      repeat split; intros; try done; lia.
Qed.

(** C4, as the code has it: with an expected frame count [F] that the
    number of retained messages differs from, a strict call raises the
    frame-count error and leaves the state as it was; a lenient call logs a
    warning with the same text first and returns a response over the
    retained messages, whose value is the decoder's result on them when
    there is at least one, and is absent, with the warning that no
    acceptable message was received, when there is none. *)
Theorem frame_count_check self ms s F :
  OBDCommand.frames self = Some F ->
  len (relevant self (heap s) ms) <> F ->
  (OBDCommand.strict self = true ->
   __call__ self ms s =
     (Raise (OBDError (ExpectedFrames (__str__ self) F
                         (len (relevant self (heap s) ms)))), s)) /\
  (OBDCommand.strict self = false ->
   exists r s' rest,
     __call__ self ms s = (Ok r, s') /\
     log s' = log s ++ ExpectedFrames (__str__ self) F
                         (len (relevant self (heap s) ms)) :: rest /\
     OBDResponse.messages r = relevant self (heap s) ms /\
     (relevant self (heap s) ms <> [] ->
      OBDResponse.value r =
        OBDCommand.decode self
          (map (heap s') (relevant self (heap s) ms))) /\
     (relevant self (heap s) ms = [] ->
      OBDResponse.value r = None /\
      rest = [NoAcceptableMessages (__str__ self)])).
Proof.
  intros Hf Hne. rewrite call_unfold. cbv zeta.
  set (kept := relevant self (heap s) ms) in *.
  assert (frames_differ self kept = true) as ->.
  { unfold frames_differ. rewrite Hf. by apply negb_true_iff, Z.eqb_neq. }
  unfold frames_text. rewrite Hf. simpl.
  split; intros Hs; rewrite Hs; simpl; [done|].
  set (s1 := mkState _ _).
  assert (exists s2 extra,
    for_each (__constrain_message_data self) kept s1 = (Ok tt, s2) /\
    log s2 = log s1 ++ extra /\ (kept = [] -> extra = []))
    as (s2 & extra & -> & Hl & Hnil).
  { destruct (Z.ltb_spec 0 (OBDCommand.bytes self)) as [Hn|Hn].
    - destruct (for_each_lenient self kept s1 Hs Hn) as (s2 & E & _ & _).
      destruct kept as [|m kept'].
      + injection E as <-. exists s1, []. by rewrite app_nil_r.
      + destruct (for_each_lenient self (m :: kept') s1 Hs Hn)
          as (s2' & E' & [extra Hx] & _).
        exists s2', extra. done.
    - rewrite for_each_off by done. exists s1, []. by rewrite app_nil_r. }
  destruct kept as [|m kept'] eqn:Ek.
  - do 3 eexists. split; [done|]. simpl. rewrite Hl, Hnil by done.
    subst s1. simpl. rewrite app_nil_r, <- app_assoc. simpl.
    split; [done|]. split; [done|]. split; done.
  - do 3 eexists. split; [done|]. simpl. rewrite Hl. subst s1. simpl.
    rewrite <- app_assoc. simpl. split; [done|]. split; [done|].
    split; done.
Qed.

(** C6, as the code has it: [mode] and [pid] are read from the command
    alone. A command shorter than two bytes has no mode, and one of at most
    two bytes has no parameter id, whatever the bytes are. Otherwise the
    command is decoded as text: if the text is valid hexadecimal, the mode
    is the base-16 value of its first two characters and the parameter id
    that of the remaining ones; if the text is not valid hexadecimal, the
    accessor yields absent; if the bytes are not text at all, the accessor
    raises [UnicodeDecodeError]. So [0100] has mode 1 and parameter id 0,
    [01] has mode 1 and no parameter id, and [ZZ] has neither. *)
Theorem mode_pid_from_command self :
  (len (OBDCommand.command self) < 2 -> mode self = Ok None) /\
  (len (OBDCommand.command self) <= 2 -> pid self = Ok None) /\
  (forall text,
     utf8_decode (OBDCommand.command self) = Some text ->
     (isHex text = true -> 2 <= len text ->
      mode self = Ok (Some (base16 (take 2 text)))) /\
     (isHex text = true -> 2 < len text ->
      pid self = Ok (Some (base16 (drop 2 text)))) /\
     (isHex text = false -> mode self = Ok None /\ pid self = Ok None)) /\
  (utf8_decode (OBDCommand.command self) = None ->
   (2 <= len (OBDCommand.command self) ->
    mode self = Raise UnicodeDecodeError) /\
   (2 < len (OBDCommand.command self) ->
    pid self = Raise UnicodeDecodeError)) /\
  (OBDCommand.command self = list_byte_of_string "0100" ->
   mode self = Ok (Some 1) /\ pid self = Ok (Some 0)) /\
  (OBDCommand.command self = list_byte_of_string "01" ->
   mode self = Ok (Some 1) /\ pid self = Ok None) /\
  (OBDCommand.command self = list_byte_of_string "ZZ" ->
   mode self = Ok None /\ pid self = Ok None).
Proof.
  unfold mode, pid, hex_guard. cbv zeta.
  generalize (OBDCommand.command self) as c. intros c.
  split; [|split; [|split; [|split; [|split; [|split]]]]].
  - intros H. by replace (2 <=? len c) with false
      by (symmetry; apply Z.leb_gt; lia).
  - intros H. by replace (2 <? len c) with false
      by (symmetry; apply Z.ltb_ge; lia).
  - intros text H. split; [|split].
    + intros Hx Hl. pose proof (utf8_decode_hex c text H Hx) as ->.
      rewrite H, Hx. unfold len in *. rewrite length_map in Hl.
      replace (2 <=? _) with true by (symmetry; apply Z.leb_le; lia).
      rewrite List.firstn_map. rewrite int16_hex; [done| |].
      * destruct c as [|? [|? ?]]; simpl in *; try done; lia.
      * rewrite <- List.firstn_map. by apply forallb_take.
    + intros Hx Hl. pose proof (utf8_decode_hex c text H Hx) as ->.
      rewrite H, Hx. unfold len in *. rewrite length_map in Hl.
      replace (2 <? _) with true by (symmetry; apply Z.ltb_lt; lia).
      rewrite List.skipn_map. rewrite int16_hex; [done| |].
      * destruct c as [|? [|? [|? ?]]]; simpl in *; try done; lia.
      * rewrite <- List.skipn_map. by apply forallb_drop.
    + intros Hx. rewrite H, Hx.
      by destruct (2 <=? len c), (2 <? len c).
  - intros H. rewrite H. split; intros Hl.
    + by replace (2 <=? len c) with true by (symmetry; apply Z.leb_le; lia).
    + by replace (2 <? len c) with true by (symmetry; apply Z.ltb_lt; lia).
  - by intros ->.
  - by intros ->.
  - by intros ->.
Qed.

(** C7: a descriptor equals another value exactly when that value is a
    descriptor with the same command, whatever the other fields are; it
    equals no value that is not a descriptor; its hash is the hash of its
    command, so descriptors with equal commands hash alike, and descriptors
    with different commands never compare equal. *)
Theorem identity_by_command (hash : list byte -> Z) (a b : Command)
    (o : @object V) :
  (__eq__ a (an_OBDCommand b) = true <->
   OBDCommand.command a = OBDCommand.command b) /\
  ((forall c, o <> an_OBDCommand c) -> __eq__ a o = false) /\
  __hash__ hash a = hash (OBDCommand.command a) /\
  (OBDCommand.command a = OBDCommand.command b ->
   __eq__ a (an_OBDCommand b) = true /\ __hash__ hash a = __hash__ hash b) /\
  (OBDCommand.command a <> OBDCommand.command b ->
   __eq__ a (an_OBDCommand b) = false).
Proof.
  split; [apply bytes_eqb_eq|].
  split; [intros H; destruct o; try done; by destruct (H c)|].
  split; [done|].
  split.
  - intros E. split; [by apply bytes_eqb_eq|]. unfold __hash__. by rewrite E.
  - intros Hne. simpl. destruct (bytes_eqb _ _) eqn:E; [|done].
    by apply bytes_eqb_eq in E.
Qed.

(** C9: [clone] returns a new descriptor: a reference that is not the
    original's and that no object had before, while every object that was
    there, the original among them, stays as it was, also when the clone is
    assigned to later. The new object has the nine fields of the original,
    and a call of it on a batch comes to the same as a call of the original
    on it: the same value in the response (or the same exception), over the
    same messages, with the same writes and warnings. *)
Theorem clone_is_new_and_equivalent (objects : list Command) (self : nat)
    (original : Command) :
  objects !! self = Some original ->
  exists (r : nat) (objects' : list Command) (copy : Command),
    clone_object self objects = Some (r, objects') /\
    r <> self /\
    objects !! r = None /\
    objects' !! r = Some copy /\
    (forall i d, objects !! i = Some d -> objects' !! i = Some d) /\
    (forall d, <[r := d]> objects' !! self = Some original) /\
    OBDCommand.name copy = OBDCommand.name original /\
    OBDCommand.desc copy = OBDCommand.desc original /\
    OBDCommand.command copy = OBDCommand.command original /\
    OBDCommand.bytes copy = OBDCommand.bytes original /\
    OBDCommand.decode copy = OBDCommand.decode original /\
    OBDCommand.ecu copy = OBDCommand.ecu original /\
    OBDCommand.fast copy = OBDCommand.fast original /\
    OBDCommand.frames copy = OBDCommand.frames original /\
    OBDCommand.strict copy = OBDCommand.strict original /\
    forall ms s,
      value_of (fst (__call__ copy ms s)) =
      value_of (fst (__call__ original ms s)) /\
      snd (__call__ copy ms s) = snd (__call__ original ms s).
Proof.
  intros Hself. unfold clone_object, new_OBDCommand. rewrite Hself.
  pose proof (lookup_lt_Some _ _ _ Hself) as Hlt.
  exists (length objects), (objects ++ [clone original]), (clone original).
  split; [done|]. split; [lia|].
  split; [by apply lookup_ge_None_2|].
  split; [by apply list_lookup_middle|].
  split; [intros i d Hi; by apply lookup_app_l_Some|].
  split.
  { intros d. rewrite list_lookup_insert_ne by lia.
    by apply lookup_app_l_Some. }
  by destruct original.
Qed.

(** ** Further lemmas on the loop *)

Lemma constrain_conforming self m s :
  conforms self (Message.data (heap s m)) ->
  __constrain_message_data self m s = (Ok tt, s).
Proof.
  unfold conforms, __constrain_message_data. intros H. run.
  destruct (Z.ltb_spec 0 (OBDCommand.bytes self)) as [Hn|Hn]; [|done].
  simpl. rewrite (H Hn). by rewrite Z.ltb_irrefl.
Qed.

Lemma for_each_conforming self ms s :
  (forall m, m ∈ ms -> conforms self (Message.data (heap s m))) ->
  for_each (__constrain_message_data self) ms s = (Ok tt, s).
Proof.
  induction ms as [|m ms IH]; intros H; [done|].
  cbn [for_each]. erewrite bind_Ok.
  - apply IH. intros r Hr. apply H. by right.
  - apply constrain_conforming, H. by left.
Qed.

Lemma relevant_ext self h h' ms :
  (forall m, Message.ecu (h' m) = Message.ecu (h m)) ->
  relevant self h' ms = relevant self h ms.
Proof.
  intros H. unfold relevant. apply list_filter_iff. intros m. by rewrite H.
Qed.

Lemma first_mismatch_None n h ms :
  first_mismatch n h ms = None <->
  forall m, m ∈ ms -> len (Message.data (h m)) = n.
Proof.
  unfold first_mismatch. split.
  - intros E m Hm. apply list_elem_of_In in Hm.
    apply (List.find_none _ _ E) in Hm.
    by apply negb_false_iff, Z.eqb_eq in Hm.
  - intros H. destruct (List.find _ ms) as [m|] eqn:E; [|done].
    apply List.find_some in E as [Hin Hp].
    apply negb_true_iff, Z.eqb_neq in Hp.
    destruct Hp. apply H. by apply list_elem_of_In.
Qed.

(** What one lenient step logs, and which objects it leaves alone: those
    that do not hold the payload of [m]. *)
Lemma constrain_lenient_exact self m s :
  OBDCommand.strict self = false ->
  exists s',
    __constrain_message_data self m s = (Ok tt, s') /\
    log s' = log s ++ correction_warning self (Message.data (heap s m)) /\
    forall r, holder (heap s) m r = false -> heap s' r = heap s r.
Proof.
  intros Hs. unfold __constrain_message_data, correction_warning. run.
  rewrite Hs. destruct (0 <? OBDCommand.bytes self); simpl.
  - remember (OBDCommand.bytes self) as n eqn:En.
    remember (Message.data (heap s m)) as d eqn:Ed.
    destruct (n <? len d); [|destruct (len d <? n)]; simpl;
      eexists; (split; [reflexivity|]); simpl.
    + unfold insert, fn_insert. split.
      * rewrite decide_True by done. simpl. by subst.
      * intros r Hr. case_decide as Hm; [|done]. subst r.
        by rewrite holder_refl in Hr.
    + rewrite holder_refl. simpl. split; [by subst|].
      intros r Hr. by rewrite Hr.
    + split; [by rewrite app_nil_r|done].
  - exists s. split; [done|]. split; [by rewrite app_nil_r|done].
Qed.

Lemma correction_warning_length self d :
  (length (correction_warning self d) <= 1)%nat.
Proof.
  unfold correction_warning. cbv zeta.
  repeat case_match; simpl; lia.
Qed.

Lemma flat_map_ext_in {A B} (f g : A -> list B) l :
  (forall x, x ∈ l -> f x = g x) -> flat_map f l = flat_map g l.
Proof.
  induction l as [|x l IH]; intros H; [done|]. simpl.
  rewrite (H x) by by left. rewrite IH; [done|].
  intros y Hy. apply H. by right.
Qed.

(** On a batch without repetitions, of messages that hold no payload
    together, the lenient loop logs, in batch order, the warning each
    payload calls for as it was before the call. *)
Lemma for_each_lenient_log self ms s :
  OBDCommand.strict self = false -> NoDup ms -> apart (heap s) ms ->
  exists s',
    for_each (__constrain_message_data self) ms s = (Ok tt, s') /\
    log s' = log s ++
      flat_map (fun m => correction_warning self (Message.data (heap s m)))
        ms /\
    forall r, (forall m, m ∈ ms -> holder (heap s) m r = false) ->
      heap s' r = heap s r.
Proof.
  intros Hs Hnd. revert s.
  induction Hnd as [|m ms Hm Hnd IH]; intros s Hap.
  - exists s. split; [done|]. split; [by rewrite app_nil_r|done].
  - destruct (constrain_lenient_exact self m s Hs) as (s1 & E1 & L1 & H1).
    assert (forall x, x ∈ ms -> heap s1 x = heap s x) as Hms.
    { intros x Hx. apply H1. apply Hap; [by left|by right|].
      intros ->. done. }
    destruct (IH s1) as (s2 & E2 & L2 & H2).
    { intros x y Hx Hy Hne. rewrite (holder_ext (heap s) (heap s1)).
      - apply Hap; [by right|by right|done].
      - by rewrite Hms.
      - by rewrite Hms. }
    exists s2. cbn [for_each]. erewrite bind_Ok by apply E1.
    split; [done|]. split.
    + rewrite L2, L1, <- app_assoc. simpl. do 2 f_equal.
      apply flat_map_ext_in. intros r Hr. by rewrite Hms.
    + intros r Hr. assert (heap s1 r = heap s r) as Hr1
        by (apply H1, Hr; by left).
      rewrite H2; [done|]. intros x Hx.
      rewrite (holder_ext (heap s) (heap s1)).
      * apply Hr. by right.
      * by rewrite Hms.
      * by rewrite Hr1.
Qed.

(** Whatever the batch, the lenient loop logs at most one warning a
    message. *)
Lemma for_each_lenient_bound self ms s :
  OBDCommand.strict self = false ->
  exists s' extra,
    for_each (__constrain_message_data self) ms s = (Ok tt, s') /\
    log s' = log s ++ extra /\ (length extra <= length ms)%nat.
Proof.
  intros Hs. revert s. induction ms as [|m ms IH]; intros s.
  - exists s, []. split; [done|]. split; [by rewrite app_nil_r|done].
  - destruct (constrain_lenient_exact self m s Hs) as (s1 & E1 & L1 & _).
    destruct (IH s1) as (s2 & x2 & E2 & L2 & B2).
    exists s2, (correction_warning self (Message.data (heap s m)) ++ x2).
    cbn [for_each]. erewrite bind_Ok by apply E1.
    split; [done|]. split; [by rewrite L2, L1, app_assoc|].
    rewrite length_app. pose proof (correction_warning_length self
      (Message.data (heap s m))). simpl. lia.
Qed.

(** The loop in either mode and with either outcome. *)
Lemma loop_post self ms s res s' :
  for_each (__constrain_message_data self) ms s = (res, s') ->
  (forall m, Message.ecu (heap s' m) = Message.ecu (heap s m)) /\
  (forall m, m ∉ ms -> (forall x, x ∈ ms -> holder (heap s) x m = false) ->
     heap s' m = heap s m) /\
  (res = Ok tt ->
   forall m, m ∈ ms -> conforms self (Message.data (heap s' m))) /\
  (OBDCommand.strict self = true ->
   s' = s /\
   (res = Ok tt <->
    forall m, m ∈ ms -> conforms self (Message.data (heap s m)))) /\
  (OBDCommand.strict self = false -> res = Ok tt).
Proof.
  intros E. destruct (OBDCommand.strict self) eqn:Hs;
    destruct (Z.ltb_spec 0 (OBDCommand.bytes self)) as [Hn|Hn].
  - rewrite for_each_strict in E by done. injection E as <- <-.
    assert ((match first_mismatch (OBDCommand.bytes self) (heap s) ms with
             | Some m => Raise (OBDError (payload_error self
                                   (Message.data (heap s m))))
             | None => Ok tt
             end = Ok tt) <->
            forall m, m ∈ ms -> conforms self (Message.data (heap s m)))
      as Hiff.
    { unfold conforms. split.
      - destruct (first_mismatch _ _ _) eqn:F; [done|]. intros _ m Hm _.
        by apply (proj1 (first_mismatch_None _ _ _) F).
      - intros H. rewrite (proj2 (first_mismatch_None _ _ _)); [done|].
        intros m Hm. by apply H. }
    repeat split; try done; try apply Hiff.
  - rewrite for_each_off in E by done. injection E as <- <-.
    repeat split; try done; intros; unfold conforms; lia.
  - destruct (for_each_lenient self ms s Hs Hn) as (s2 & E2 & _ & H2).
    rewrite E2 in E. injection E as <- <-.
    split; [intros m; rewrite H2; apply lenient_message_ecu|]. split.
    { intros m Hm Hh. rewrite H2. by apply lenient_message_apart. }
    split; [|done]. intros _ m Hm _. rewrite H2.
    rewrite lenient_message_retained by (done || lia).
    apply normalise_len. lia.
  - rewrite for_each_off in E by done. injection E as <- <-.
    repeat split; try done; intros; unfold conforms; lia.
Qed.

(** The call, prepared for case analysis: the state the loop starts from
    and what it leaves. *)
Lemma call_inv self ms s res s' :
  __call__ self ms s = (res, s') ->
  (OBDCommand.strict self = true /\
   frames_differ self (relevant self (heap s) ms) = true /\
   res = Raise (OBDError
           (frames_text self (len (relevant self (heap s) ms)))) /\
   s' = s) \/
  (exists s1 res2 s2,
     heap s1 = heap s /\
     log s1 = log s ++ frame_warning self (relevant self (heap s) ms) /\
     (OBDCommand.strict self = true ->
      s1 = s /\ frames_differ self (relevant self (heap s) ms) = false) /\
     for_each (__constrain_message_data self)
       (relevant self (heap s) ms) s1 = (res2, s2) /\
     match res2 with
     | Raise e => res = Raise e /\ s' = s2
     | Ok _ =>
       heap s' = heap s2 /\
       log s' = log s2 ++ empty_warning self (relevant self (heap s) ms) /\
       res = Ok (OBDResponse.mk Command V self (relevant self (heap s) ms)
                   (match relevant self (heap s) ms with
                    | [] => None
                    | _ :: _ =>
                      OBDCommand.decode self
                        (map (heap s2) (relevant self (heap s) ms))
                    end))
     end).
Proof.
  rewrite call_unfold. cbv zeta.
  set (kept := relevant self (heap s) ms).
  assert (frame_warning self kept =
          if frames_differ self kept
          then [frames_text self (len kept)] else []) as Hw.
  { unfold frame_warning, frames_differ, frames_text.
    destruct (OBDCommand.frames self) as [F|]; [|done]. simpl.
    by destruct (F =? len kept). }
  destruct (frames_differ self kept) eqn:Hf,
    (OBDCommand.strict self) eqn:Hs; simpl.
  - intros [= <- <-]. by left.
  - intros E. right.
    destruct (for_each _ kept _) as [res2 s2] eqn:El.
    eexists _, res2, s2. split; [|split; [|split; [|split; [exact El|]]]];
      simpl; try done; [by rewrite Hw|].
    destruct res2 as [[]|e]; [|by injection E as <- <-].
    destruct kept; injection E as <- <-; simpl; by rewrite ?app_nil_r.
  - intros E. right.
    destruct (for_each _ kept _) as [res2 s2] eqn:El.
    eexists s, res2, s2. split; [|split; [|split; [|split; [exact El|]]]];
      simpl; try done; [by rewrite Hw, app_nil_r|].
    destruct res2 as [[]|e]; [|by injection E as <- <-].
    destruct kept; injection E as <- <-; simpl; by rewrite ?app_nil_r.
  - intros E. right.
    destruct (for_each _ kept _) as [res2 s2] eqn:El.
    eexists s, res2, s2. split; [|split; [|split; [|split; [exact El|]]]];
      simpl; try done; [by rewrite Hw, app_nil_r|].
    destruct res2 as [[]|e]; [|by injection E as <- <-].
    destruct kept; injection E as <- <-; simpl; by rewrite ?app_nil_r.
Qed.

(** ** Further properties of the code *)

(** X1: a lenient call never raises: whatever the batch, the frame count
    and the payload lengths, it returns a response of this descriptor over
    the retained messages. *)
Theorem lenient_call_returns self ms s :
  OBDCommand.strict self = false ->
  exists r s',
    __call__ self ms s = (Ok r, s') /\
    OBDResponse.command r = self /\
    OBDResponse.messages r = relevant self (heap s) ms.
Proof.
  intros Hs.
  destruct (call_outcome self ms s) as [[Hs' _]|H]; [congruence|done].
Qed.

(** X2: when a call returns, in either mode, the decoder has been handed
    payloads of the expected size: with an expected byte count above 0
    every retained message holds exactly that many bytes after the call;
    the value is [None] when nothing was retained, and is else whatever
    the decoder returns, [None] included, on the retained messages as they
    are after the call. *)
Theorem returned_response_is_sized self ms s r s' :
  __call__ self ms s = (Ok r, s') ->
  (0 < OBDCommand.bytes self ->
   forall m, m ∈ OBDResponse.messages r ->
     len (Message.data (heap s' m)) = OBDCommand.bytes self) /\
  (OBDResponse.messages r = [] -> OBDResponse.value r = None) /\
  (OBDResponse.messages r <> [] ->
   OBDResponse.value r =
     OBDCommand.decode self (map (heap s') (OBDResponse.messages r))).
Proof.
  intros E. destruct (call_inv self ms s _ _ E)
    as [(_ & _ & ? & _)|(s1 & res2 & s2 & H1 & _ & _ & El & H)]; [done|].
  destruct (loop_post self _ _ _ _ El) as (_ & _ & Hc & _).
  destruct res2 as [[]|e]; [|by destruct H].
  destruct H as (Hh & _ & [= ->]). simpl. rewrite Hh.
  split; [intros Hn m Hm; by apply Hc|].
  destruct (relevant self (heap s) ms); split; try done.
Qed.

(** X3: a call, in either mode and whether it returns or raises, changes
    the ECU tag of no message, and changes nothing of a message that the
    attribution filter does not retain and that holds no payload object
    together with a retained message, be it in the batch or not. *)
Theorem call_writes_only_retained_payloads self ms s m :
  Message.ecu (heap (snd (__call__ self ms s)) m) = Message.ecu (heap s m) /\
  (m ∉ relevant self (heap s) ms ->
   (forall x, x ∈ relevant self (heap s) ms ->
      holder (heap s) x m = false) ->
   heap (snd (__call__ self ms s)) m = heap s m).
Proof.
  destruct (__call__ self ms s) as [res s'] eqn:E. simpl.
  destruct (call_inv self ms s _ _ E)
    as [(_ & _ & _ & ->)|(s1 & res2 & s2 & H1 & _ & _ & El & H)]; [done|].
  destruct (loop_post self _ _ _ _ El) as (He & Hd & _).
  assert (heap s' = heap s2) as ->.
  { destruct res2 as [[]|e]; [by destruct H|]. by destruct H as [_ ->]. }
  split; [rewrite <- H1; apply He|]. intros Hm Hh.
  rewrite <- H1. apply Hd; [done|]. by rewrite H1.
Qed.

(** X4: on input of the expected shape strictness makes no difference:
    when the frame count, if one is expected, is the number of retained
    messages, every retained payload has the expected size, if one is
    expected, and something is retained, the call returns the decoder's
    result on the retained messages and leaves the state as it was: no
    write and no warning. *)
Theorem conforming_call_is_silent self ms s :
  (forall F, OBDCommand.frames self = Some F ->
     F = len (relevant self (heap s) ms)) ->
  (0 < OBDCommand.bytes self ->
   forall m, m ∈ relevant self (heap s) ms ->
     len (Message.data (heap s m)) = OBDCommand.bytes self) ->
  relevant self (heap s) ms <> [] ->
  __call__ self ms s =
    (Ok (OBDResponse.mk Command V self (relevant self (heap s) ms)
           (OBDCommand.decode self
              (map (heap s) (relevant self (heap s) ms)))), s).
Proof.
  intros Hf Hc Hne. rewrite call_unfold. cbv zeta.
  assert (frames_differ self (relevant self (heap s) ms) = false) as ->.
  { unfold frames_differ. destruct (OBDCommand.frames self) as [F|]; [|done].
    rewrite (Hf F eq_refl). by rewrite Z.eqb_refl. }
  simpl. rewrite for_each_conforming.
  - by destruct (relevant self (heap s) ms).
  - intros m Hm Hn. by apply Hc.
Qed.

(** X5: a call that has returned can be repeated: the second call on the
    same batch returns the same response and writes to no message. *)
Theorem returned_call_is_idempotent self ms s r s1 :
  __call__ self ms s = (Ok r, s1) ->
  exists s2, __call__ self ms s1 = (Ok r, s2) /\ heap s2 = heap s1.
Proof.
  intros E. destruct (call_inv self ms s _ _ E)
    as [(_ & _ & ? & _)|(s0 & res2 & s' & H0 & _ & Hst & El & H)]; [done|].
  destruct (loop_post self _ _ _ _ El) as (He & _ & Hc & _).
  destruct res2 as [[]|e]; [|by destruct H].
  destruct H as (Hh & _ & ->). specialize (Hc eq_refl).
  assert (relevant self (heap s1) ms = relevant self (heap s) ms) as Hk.
  { apply relevant_ext. intros m. by rewrite Hh, He, H0. }
  rewrite call_unfold. cbv zeta. rewrite Hk.
  set (kept := relevant self (heap s) ms) in *.
  assert (frames_differ self kept && OBDCommand.strict self = false) as ->.
  { destruct (OBDCommand.strict self); [|by rewrite andb_false_r].
    destruct (Hst eq_refl) as [_ ->]. done. }
  set (s1' := if frames_differ self kept then _ else s1).
  assert (heap s1' = heap s1) as Hh'
    by (subst s1'; by destruct (frames_differ self kept)).
  rewrite for_each_conforming.
  - rewrite Hh', Hh. destruct kept; eexists; split; try done.
    simpl. by rewrite Hh'.
  - intros m Hm. rewrite Hh', Hh. by apply Hc.
Qed.

(** X6: strict mode never corrects and never warns of a shape: a strict
    call, whether it returns or raises, writes to no message, and logs
    nothing but, when it returns with nothing retained, the warning that no
    acceptable message was received. *)
Theorem strict_call_is_silent self ms s :
  OBDCommand.strict self = true ->
  heap (snd (__call__ self ms s)) = heap s /\
  (log (snd (__call__ self ms s)) = log s \/
   relevant self (heap s) ms = [] /\
   (exists r, fst (__call__ self ms s) = Ok r) /\
   log (snd (__call__ self ms s)) =
     log s ++ [NoAcceptableMessages (__str__ self)]).
Proof.
  intros Hs. destruct (__call__ self ms s) as [res s'] eqn:E. simpl.
  destruct (call_inv self ms s _ _ E)
    as [(_ & _ & _ & ->)|(s1 & res2 & s2 & H1 & _ & Hst & El & H)];
    [by split; [|left]|].
  destruct (Hst Hs) as [-> _].
  destruct (loop_post self _ _ _ _ El) as (_ & _ & _ & Hstrict & _).
  destruct (Hstrict Hs) as [-> _].
  destruct res2 as [[]|e]; [|destruct H as [_ ->]; by split; [|left]].
  destruct H as (-> & Hl & ->). split; [done|]. rewrite Hl.
  destruct (relevant self (heap s) ms); simpl.
  - right. eauto.
  - left. by rewrite app_nil_r.
Qed.

(** X7: a strict call returns exactly on input of the expected shape: when
    the frame count, if one is expected, is the number of retained
    messages, and every retained payload has the expected size, if one
    above 0 is expected. *)
Theorem strict_call_returns_iff self ms s :
  OBDCommand.strict self = true ->
  ((exists r s', __call__ self ms s = (Ok r, s')) <->
   (forall F, OBDCommand.frames self = Some F ->
      F = len (relevant self (heap s) ms)) /\
   (0 < OBDCommand.bytes self ->
    forall m, m ∈ relevant self (heap s) ms ->
      len (Message.data (heap s m)) = OBDCommand.bytes self)).
Proof.
  intros Hs. split.
  - intros (r & s' & E). destruct (call_inv self ms s _ _ E)
      as [(_ & _ & ? & _)|(s1 & res2 & s2 & _ & _ & Hst & El & H)]; [done|].
    destruct (Hst Hs) as [-> Hf].
    destruct (loop_post self _ _ _ _ El) as (_ & _ & _ & Hstrict & _).
    destruct (Hstrict Hs) as [_ Hiff].
    destruct res2 as [[]|e]; [|by destruct H]. split.
    + intros F HF. unfold frames_differ in Hf. rewrite HF in Hf.
      by apply negb_false_iff, Z.eqb_eq in Hf.
    + intros Hn m Hm. by apply (proj1 Hiff eq_refl m Hm).
  - intros [Hf Hc]. rewrite call_unfold. cbv zeta.
    assert (frames_differ self (relevant self (heap s) ms) = false) as ->.
    { unfold frames_differ.
      destruct (OBDCommand.frames self) as [F|]; [|done].
      rewrite (Hf F eq_refl). by rewrite Z.eqb_refl. }
    simpl. rewrite for_each_conforming.
    + destruct (relevant self (heap s) ms); eauto.
    + intros m Hm Hn. by apply Hc.
Qed.

(** X8: the warnings of a lenient call that retains no message twice and
    no two messages that hold one payload object, in order: the
    frame-count warning if the count is not the expected one; then, in
    batch order, one warning for each retained payload that is not of the
    expected size, with the payload as corrected; then the warning that no
    acceptable message was received if nothing was retained. *)
Theorem lenient_call_warnings self ms s :
  OBDCommand.strict self = false ->
  NoDup (relevant self (heap s) ms) ->
  apart (heap s) (relevant self (heap s) ms) ->
  exists r s',
    __call__ self ms s = (Ok r, s') /\
    log s' =
      log s ++
      frame_warning self (relevant self (heap s) ms) ++
      flat_map (fun m => correction_warning self (Message.data (heap s m)))
        (relevant self (heap s) ms) ++
      empty_warning self (relevant self (heap s) ms).
Proof.
  intros Hs Hnd Hap. destruct (__call__ self ms s) as [res s'] eqn:E.
  destruct (call_inv self ms s _ _ E)
    as [(? & _)|(s1 & res2 & s2 & H1 & L1 & _ & El & H)]; [congruence|].
  destruct (for_each_lenient_log self _ s1 Hs Hnd) as (s2' & E' & L2 & _).
  { by rewrite H1. }
  rewrite E' in El. injection El as <- <-.
  destruct H as (_ & L & ->). do 2 eexists. split; [done|].
  rewrite L, L2, L1, H1. by rewrite <- !app_assoc.
Qed.

(** X9: a call only adds to the log: the warnings logged before are kept,
    at most one warning a retained message and two more are added, and a
    call that raises adds none. *)
Theorem call_log_grows self ms s res s' :
  __call__ self ms s = (res, s') ->
  exists extra,
    log s' = log s ++ extra /\
    (length extra <= length (relevant self (heap s) ms) + 2)%nat /\
    (forall e, res = Raise e -> extra = []).
Proof.
  intros E. destruct (call_inv self ms s _ _ E)
    as [(_ & _ & -> & ->)|(s1 & res2 & s2 & H1 & L1 & Hst & El & H)].
  { exists []. rewrite app_nil_r. split; [done|]. split; [simpl; lia|done]. }
  assert (length (frame_warning self (relevant self (heap s) ms)) <= 1)%nat
    as Bf by (unfold frame_warning; repeat case_match; simpl; lia).
  assert (length (empty_warning self (relevant self (heap s) ms)) <= 1)%nat
    as Be by (unfold empty_warning; repeat case_match; simpl; lia).
  destruct (OBDCommand.strict self) eqn:Hs.
  - destruct (Hst eq_refl) as [-> _].
    destruct (loop_post self _ _ _ _ El) as (_ & _ & _ & Hstrict & _).
    destruct (Hstrict Hs) as [-> _].
    destruct res2 as [[]|e].
    + destruct H as (_ & L & ->). eexists. split; [exact L|].
      split; [lia|done].
    + destruct H as [-> ->]. exists []. rewrite app_nil_r.
      split; [done|]. split; [simpl; lia|done].
  - destruct (for_each_lenient_bound self (relevant self (heap s) ms) s1 Hs)
      as (s2' & extra & E' & L2 & B).
    rewrite E' in El. injection El as <- <-.
    destruct H as (_ & L & ->). eexists. split.
    + rewrite L, L2, L1, <- !app_assoc. done.
    + split; [rewrite !length_app; lia|done].
Qed.

(** X10: what a lenient call leaves in the store depends on which messages
    are in the batch, not on their order or on how often they occur. *)
Theorem lenient_store_ignores_batch_order self ms1 ms2 s :
  OBDCommand.strict self = false ->
  (forall m, m ∈ ms1 <-> m ∈ ms2) ->
  forall m,
    heap (snd (__call__ self ms1 s)) m = heap (snd (__call__ self ms2 s)) m.
Proof.
  intros Hs Hms m.
  assert (forall ms,
    heap (snd (__call__ self ms s)) m =
      if 0 <? OBDCommand.bytes self
      then lenient_message (OBDCommand.bytes self) (heap s)
             (relevant self (heap s) ms) m
      else heap s m) as Hfinal.
  { intros ms. destruct (__call__ self ms s) as [res s'] eqn:E. simpl.
    destruct (call_inv self ms s _ _ E)
      as [(? & _)|(s1 & res2 & s2 & H1 & _ & _ & El & H)]; [congruence|].
    destruct (Z.ltb_spec 0 (OBDCommand.bytes self)) as [Hn|Hn].
    - destruct (for_each_lenient self (relevant self (heap s) ms) s1 Hs Hn)
        as (s2' & E' & _ & H2).
      rewrite E' in El. injection El as <- <-.
      destruct H as (-> & _). by rewrite H2, H1.
    - rewrite for_each_off in El by done. injection El as <- <-.
      destruct H as (-> & _). by rewrite H1. }
  rewrite !Hfinal. destruct (0 <? OBDCommand.bytes self); [|done].
  apply lenient_message_equiv. intros x. unfold relevant.
  by rewrite !list_elem_of_filter, Hms.
Qed.

(** X11: a message tagged 0 is retained by no descriptor, and a descriptor
    whose ECU mask is 0 retains no message: its calls never reach the
    decoder. *)
Theorem zero_mask_retains_nothing self h ms :
  (forall m, Message.ecu (h m) = 0 -> m ∉ relevant self h ms) /\
  (OBDCommand.ecu self = 0 -> relevant self h ms = []) /\
  (OBDCommand.ecu self = 0 ->
   forall s r s', __call__ self ms s = (Ok r, s') ->
     OBDResponse.value r = None).
Proof.
  assert (OBDCommand.ecu self = 0 -> forall h', relevant self h' ms = [])
    as Hnil.
  { intros H0 h'. unfold relevant. induction ms as [|m ms IH]; [done|].
    rewrite filter_cons, IH. rewrite H0, Z.land_0_l.
    by rewrite decide_False by lia. }
  split; [|split; [by auto|]].
  - intros m H0 Hm. unfold relevant in Hm.
    apply list_elem_of_filter in Hm as [Hm _].
    rewrite H0, Z.land_0_r in Hm. lia.
  - intros H0 s r s' E. destruct (call_inv self ms s _ _ E)
      as [(_ & _ & ? & _)|(s1 & res2 & s2 & _ & _ & _ & _ & H)]; [done|].
    destruct res2 as [[]|e]; [|by destruct H].
    destruct H as (_ & _ & [= ->]). simpl. by rewrite Hnil.
Qed.

(** *** The accessors *)

Lemma hexval_range c v : hexval c = Some v -> 0 <= v <= 15.
Proof.
  unfold hexval, in_range. intros H.
  repeat case_match; simplify_eq; boolZ; lia.
Qed.

Lemma int16_acc_bounds c : forall acc v,
  0 <= acc -> int16_acc acc c = Some v ->
  acc * 16 ^ len c <= v < (acc + 1) * 16 ^ len c.
Proof.
  induction c as [|b c IH]; intros acc v Ha E; simpl in E.
  - injection E as <-. unfold len. simpl. lia.
  - destruct (hexval (ord b)) as [h|] eqn:Hh; [|done].
    apply hexval_range in Hh. apply IH in E; [|lia].
    replace (len (b :: c)) with (len c + 1) by (unfold len; simpl; lia).
    rewrite Z.pow_add_r by (unfold len; lia).
    assert (0 < 16 ^ len c) by (apply Z.pow_pos_nonneg; unfold len; lia).
    nia.
Qed.

Lemma int16_bounds c v : int16 c = Ok v -> 0 <= v < 16 ^ len c.
Proof.
  unfold int16. intros E. destruct c as [|b c]; [done|].
  destruct (int16_acc 0 (b :: c)) as [v'|] eqn:Ea; [|done].
  injection E as ->. apply int16_acc_bounds in Ea; lia.
Qed.

(** Bytes that do not decode hold a byte outside ASCII. *)
Lemma utf8_decode_None c :
  utf8_decode c = None -> exists b, b ∈ c /\ 128 <= ord b.
Proof.
  induction c as [|b c IH]; [done|]. intros E.
  destruct (Z.leb_spec (ord b) 127) as [Hb|Hb].
  - cbn [utf8_decode] in E. cbv zeta in E.
    replace (ord b <=? 127) with true in E
      by (symmetry; by apply Z.leb_le).
    destruct (utf8_decode c); [done|].
    destruct IH as (b' & Hin & Hb'); [done|]. exists b'. split; [by right|done].
  - exists b. split; [by left|lia].
Qed.

(** X12: a mode, when there is one, is the value of two hexadecimal digits,
    from 0 to 255; a parameter id, when there is one, is not negative and
    below 16 to the number of its digits, and then there is a mode as
    well. *)
Theorem mode_pid_range self :
  (forall v, mode self = Ok (Some v) -> 0 <= v <= 255) /\
  (forall p, pid self = Ok (Some p) ->
     0 <= p < 16 ^ (len (OBDCommand.command self) - 2) /\
     exists v, mode self = Ok (Some v)).
Proof.
  unfold mode, pid. cbv zeta.
  generalize (OBDCommand.command self) as c. intros c. split.
  - intros v E. destruct (hex_guard _ c) as [[|]|e] eqn:G; try done.
    destruct (hex_guard_true _ _ G) as [Hl _]. apply Z.leb_le in Hl.
    destruct (int16 (take 2 c)) as [v'|] eqn:Ei; [|done].
    injection E as ->. apply int16_bounds in Ei.
    replace (len (take 2 c)) with 2 in Ei
      by (unfold len in *; rewrite length_take; lia).
    lia.
  - intros p E. destruct (hex_guard (2 <? len c) c) as [[|]|e] eqn:G;
      try done.
    destruct (hex_guard_true _ _ G) as [Hl Hx]. apply Z.ltb_lt in Hl.
    destruct (int16 (drop 2 c)) as [p'|] eqn:Ei; [|done].
    injection E as ->. apply int16_bounds in Ei.
    replace (len (drop 2 c)) with (len c - 2) in Ei
      by (unfold len in *; rewrite length_drop; lia).
    split; [done|].
    assert (hex_guard (2 <=? len c) c = Ok true) as ->.
    { unfold hex_guard in *.
      replace (2 <? len c) with true in G by (symmetry; by apply Z.ltb_lt).
      by replace (2 <=? len c) with true
        by (symmetry; apply Z.leb_le; lia). }
    rewrite int16_hex; [eauto| |].
    + unfold len in Hl. destruct c as [|? [|? ?]]; simpl in *; try done; lia.
    + rewrite <- List.firstn_map. by apply forallb_take.
Qed.

(** X13: the accessors raise nothing but [UnicodeDecodeError], and that
    only on a command that holds a byte outside ASCII: on a command of
    ASCII bytes both return. *)
Theorem accessors_raise_on_non_ascii_only self e :
  mode self = Raise e \/ pid self = Raise e ->
  e = UnicodeDecodeError /\
  exists b, b ∈ OBDCommand.command self /\ 128 <= ord b.
Proof.
  assert (forall long_enough c e',
    hex_guard long_enough c = Raise e' ->
    e' = UnicodeDecodeError /\ exists b, b ∈ c /\ 128 <= ord b) as Hg.
  { unfold hex_guard. intros [|] c e'; [|done].
    destruct (utf8_decode c) eqn:Ed; [done|]. intros [= <-].
    split; [done|]. by apply utf8_decode_None. }
  intros [E|E].
  - pose proof (mode_no_ValueError self) as Hv. unfold mode in *.
    cbv zeta in *. destruct (hex_guard _ _) as [[|]|e'] eqn:G.
    + destruct (int16 _) as [?|e0] eqn:Ei; [done|]. exfalso.
      unfold int16 in Ei. by repeat case_match; simplify_eq.
    + done.
    + injection E as ->. by eapply Hg.
  - pose proof (pid_no_ValueError self) as Hv. unfold pid in *.
    cbv zeta in *. destruct (hex_guard _ _) as [[|]|e'] eqn:G.
    + destruct (int16 _) as [?|e0] eqn:Ei; [done|]. exfalso.
      unfold int16 in Ei. by repeat case_match; simplify_eq.
    + done.
    + injection E as ->. by eapply Hg.
Qed.

(** *** Identity *)

(** X14: equality of descriptors is an equivalence: every descriptor
    equals itself, equality does not depend on the side a descriptor
    stands on, and two descriptors equal to a third are equal. *)
Theorem eq_is_equivalence (a b c : Command) :
  __eq__ a (an_OBDCommand a) = true /\
  __eq__ a (an_OBDCommand b) = __eq__ b (an_OBDCommand a) /\
  (__eq__ a (an_OBDCommand b) = true ->
   __eq__ b (an_OBDCommand c) = true ->
   __eq__ a (an_OBDCommand c) = true).
Proof.
  simpl. split; [by apply bytes_eqb_eq|]. split.
  - destruct (bytes_eqb (OBDCommand.command a) _) eqn:E1,
      (bytes_eqb (OBDCommand.command b) _) eqn:E2; try done.
    + apply bytes_eqb_eq in E1. symmetry in E1.
      apply bytes_eqb_eq in E1. congruence.
    + apply bytes_eqb_eq in E2. symmetry in E2.
      apply bytes_eqb_eq in E2. congruence.
  - rewrite !bytes_eqb_eq. congruence.
Qed.

(** X15: descriptors that are equal have the same mode and the same
    parameter id, or raise alike; a descriptor and its clone are equal, in
    both directions, and hash alike, so that either finds the other's
    entry in a dictionary. *)
Theorem equal_descriptors_agree (hash : list byte -> Z) (a b : Command) :
  (__eq__ a (an_OBDCommand b) = true -> mode a = mode b /\ pid a = pid b) /\
  __eq__ a (an_OBDCommand (clone a)) = true /\
  __eq__ (clone a) (an_OBDCommand a) = true /\
  __hash__ hash (clone a) = __hash__ hash a.
Proof.
  split.
  - intros E. apply bytes_eqb_eq in E. unfold mode, pid. by rewrite E.
  - repeat split; try by apply bytes_eqb_eq.
Qed.

(** *** Construction *)

(** X16: a descriptor constructed without the keyword arguments [ecu],
    [frames] and [strict] is lenient, expects no frame count and listens to
    [ECU.ALL]: its calls never raise, retain the messages whose tag meets
    [ECU.ALL], and yield a value whenever one of them is in the batch. *)
Theorem default_descriptor_never_raises (ECU_ALL : Z) name desc command
    bytes (decoder : list Message.t -> option V) fast ms s :
  exists r s',
    __call__ (__init__ ECU_ALL name desc command bytes decoder
                None fast None None) ms s = (Ok r, s') /\
    OBDResponse.messages r =
      filter (fun m => Z.land ECU_ALL (Message.ecu (heap s m)) > 0) ms /\
    (OBDResponse.messages r <> [] ->
     OBDResponse.value r =
       decoder (map (heap s') (OBDResponse.messages r))).
Proof.
  set (d := __init__ _ _ _ _ _ _ _ _ _ _).
  destruct (__call__ d ms s) as [res s'] eqn:E.
  destruct (call_inv d ms s _ _ E)
    as [(? & _)|(s1 & res2 & s2 & H1 & L1 & _ & El & H)]; [done|].
  destruct (loop_post d _ _ _ _ El) as (_ & _ & _ & _ & Hl).
  rewrite (Hl eq_refl) in H. destruct H as (Hh & L & ->).
  do 2 eexists. split; [done|]. split; [done|]. simpl. rewrite Hh.
  by destruct (relevant d (heap s) ms).
Qed.

(** *** The texts *)

Lemma for_each_lenient_names self ms s :
  OBDCommand.strict self = false ->
  exists s' extra,
    for_each (__constrain_message_data self) ms s = (Ok tt, s') /\
    log s' = log s ++ extra /\
    Forall (fun t => text_cmd t = __str__ self) extra.
Proof.
  intros Hs. revert s. induction ms as [|m ms IH]; intros s.
  - exists s, []. split; [done|]. split; [by rewrite app_nil_r|done].
  - destruct (constrain_lenient_exact self m s Hs) as (s1 & E1 & L1 & _).
    destruct (IH s1) as (s2 & x2 & E2 & L2 & F2).
    exists s2, (correction_warning self (Message.data (heap s m)) ++ x2).
    cbn [for_each]. erewrite bind_Ok by apply E1.
    split; [done|]. split; [by rewrite L2, L1, app_assoc|].
    apply Forall_app. split; [|done].
    unfold correction_warning. cbv zeta.
    repeat case_match; by repeat constructor.
Qed.

(** X17: every text of a call names its descriptor: the error it raises
    and each warning it adds to the log carry the command and the
    description of the descriptor called, as [__str__] gives them. *)
Theorem call_texts_name_descriptor self ms s res s' :
  __call__ self ms s = (res, s') ->
  (forall text, res = Raise (OBDError text) -> text_cmd text = __str__ self)
  /\
  exists extra,
    log s' = log s ++ extra /\
    Forall (fun text => text_cmd text = __str__ self) extra.
Proof.
  intros E. destruct (call_inv self ms s _ _ E)
    as [(_ & _ & -> & ->)|(s1 & res2 & s2 & H1 & L1 & Hst & El & H)].
  { split; [by intros text [= <-]|]. exists []. by rewrite app_nil_r. }
  set (kept := relevant self (heap s) ms) in *.
  assert (Forall (fun t => text_cmd t = __str__ self)
            (frame_warning self kept)) as Ff
    by (unfold frame_warning; repeat case_match; by repeat constructor).
  assert (Forall (fun t => text_cmd t = __str__ self)
            (empty_warning self kept)) as Fe
    by (unfold empty_warning; repeat case_match; by repeat constructor).
  destruct (OBDCommand.strict self) eqn:Hs.
  - destruct (Hst eq_refl) as [-> _].
    destruct (Z.ltb_spec 0 (OBDCommand.bytes self)) as [Hn|Hn].
    + rewrite for_each_strict in El by done. injection El as <- <-.
      destruct (first_mismatch _ _ _) as [m|].
      * destruct H as [-> ->]. split.
        -- intros text [= <-]. unfold payload_error. by case_match.
        -- exists []. by rewrite app_nil_r.
      * destruct H as (_ & L & ->). split; [done|]. eauto.
    + rewrite for_each_off in El by done. injection El as <- <-.
      destruct H as (_ & L & ->). split; [done|]. eauto.
  - destruct (for_each_lenient_names self kept s1 Hs)
      as (s2' & extra & E' & L2 & F2).
    rewrite E' in El. injection El as <- <-.
    destruct H as (_ & L & ->). split; [done|].
    eexists. split; [by rewrite L, L2, L1, <- !app_assoc|].
    by rewrite !Forall_app.
Qed.

(** *** Shared payloads *)

(** The store a call leaves, message by message. *)
Lemma call_final_heap self ms s m :
  heap (snd (__call__ self ms s)) m =
    if negb (OBDCommand.strict self) && (0 <? OBDCommand.bytes self)
    then lenient_message (OBDCommand.bytes self) (heap s)
           (relevant self (heap s) ms) m
    else heap s m.
Proof.
  destruct (__call__ self ms s) as [res s'] eqn:E. simpl.
  destruct (call_inv self ms s _ _ E)
    as [(-> & _ & _ & ->)|(s1 & res2 & s2 & H1 & _ & _ & El & H)]; [done|].
  assert (heap s' = heap s2) as ->.
  { destruct res2 as [[]|e]; [by destruct H|]. by destruct H as [_ ->]. }
  destruct (OBDCommand.strict self) eqn:Hs; simpl.
  - destruct (loop_post self _ _ _ _ El) as (_ & _ & _ & Hstrict & _).
    destruct (Hstrict Hs) as [-> _]. by rewrite H1.
  - destruct (Z.ltb_spec 0 (OBDCommand.bytes self)) as [Hn|Hn].
    + destruct (for_each_lenient self (relevant self (heap s) ms) s1 Hs Hn)
        as (s2' & E' & _ & H2).
      rewrite E' in El. injection El as <- <-. by rewrite H2, H1.
    + rewrite for_each_off in El by done. injection El as <- <-.
      by rewrite H1.
Qed.

Lemma lenient_message_consistent n h ms (h' : store) :
  (forall r, h' r = lenient_message n h ms r) ->
  consistent h -> consistent h'.
Proof.
  intros H' Hc m r Hh.
  destruct (decide (m = r)) as [->|Hne]; [done|].
  assert (~ (m ∈ ms /\ n < len (Message.data (h m))) /\
          ~ (r ∈ ms /\ n < len (Message.data (h r))) /\
          holder h m r = true) as (Hm & Hr & Hh0).
  { unfold holder in Hh |- *.
    destruct (Nat.eqb_spec m r); [done|]. simpl in *.
    rewrite (H' m), (H' r) in Hh. unfold lenient_message in Hh.
    destruct (decide (m ∈ ms /\ n < len (Message.data (h m)))); [done|].
    destruct (decide (r ∈ ms /\ n < len (Message.data (h r))));
      [simpl in Hh; by destruct (Message.buffer _)|].
    split; [done|]. split; [done|].
    by repeat case_decide. }
  rewrite (H' m), (H' r). unfold lenient_message.
  destruct (decide (m ∈ ms /\ n < len (Message.data (h m)))); [tauto|].
  destruct (decide (r ∈ ms /\ n < len (Message.data (h r)))); [tauto|].
  assert (Exists (fun x => holder h x m = true /\
                            len (Message.data (h x)) < n) ms <->
          Exists (fun x => holder h x r = true /\
                            len (Message.data (h x)) < n) ms) as Hiff.
  { rewrite !Exists_exists. split; intros (x & Hx & Hxh & Hl);
      exists x; (split; [done|]); (split; [|done]).
    - by eapply holder_trans.
    - eapply holder_trans; [done|]. by rewrite holder_sym. }
  destruct (decide (Exists (fun x => holder h x m = true /\
                                     len (Message.data (h x)) < n) ms)),
    (decide (Exists (fun x => holder h x r = true /\
                              len (Message.data (h x)) < n) ms));
    simpl; rewrite ?(Hc m r Hh0); try done; exfalso; tauto.
Qed.

(** X18: padding reaches every holder: when a lenient call pads a retained
    message whose payload is too short, every message that holds the same
    payload object, retained or not, in the batch or not, sees the padded
    payload afterwards, and still holds the same object. *)
Theorem padding_reaches_every_holder self ms s x m :
  OBDCommand.strict self = false ->
  0 < OBDCommand.bytes self ->
  consistent (heap s) ->
  x ∈ relevant self (heap s) ms ->
  len (Message.data (heap s x)) < OBDCommand.bytes self ->
  holder (heap s) x m = true ->
  Message.data (heap (snd (__call__ self ms s)) m) =
    Message.data (heap s x) ++
    replicate
      (Z.to_nat (OBDCommand.bytes self - len (Message.data (heap s x)))) x00
  /\
  Message.data (heap (snd (__call__ self ms s)) m) =
    Message.data (heap (snd (__call__ self ms s)) x) /\
  Message.buffer (heap (snd (__call__ self ms s)) m) =
    Message.buffer (heap s m).
Proof.
  intros Hs Hn Hc Hx Hl Hh.
  assert (forall r, holder (heap s) x r = true ->
    heap (snd (__call__ self ms s)) r =
      Message.mk (Message.ecu (heap s r))
        (pad (OBDCommand.bytes self) (Message.data (heap s x)))
        (Message.buffer (heap s r))) as Hfinal.
  { intros r Hr. rewrite call_final_heap, Hs. simpl.
    replace (0 <? _) with true by (symmetry; by apply Z.ltb_lt).
    pose proof (Hc x r Hr) as Hd. unfold lenient_message.
    rewrite decide_False by (rewrite <- Hd; lia).
    rewrite decide_True; [by rewrite Hd|].
    apply Exists_exists. by exists x. }
  rewrite (Hfinal m Hh), (Hfinal x (holder_refl _ _)). by simpl.
Qed.

(** X19: a call keeps the store consistent: if the messages that hold one
    payload object see one content before the call, they do after it, in
    either mode and whether the call returns or raises. *)
Theorem call_keeps_store_consistent self ms s :
  consistent (heap s) ->
  consistent (heap (snd (__call__ self ms s))).
Proof.
  intros Hc.
  destruct (negb (OBDCommand.strict self) && (0 <? OBDCommand.bytes self))
    eqn:Hb.
  - eapply lenient_message_consistent; [|exact Hc].
    intros r. by rewrite call_final_heap, Hb.
  - intros m r Hh.
    rewrite (holder_ext (heap s)) in Hh
      by (by rewrite call_final_heap, Hb).
    rewrite !call_final_heap, Hb. by apply Hc.
Qed.

End Properties.

(** ** The properties at the sample inputs *)

(** The engine descriptor keeps the engine's messages of a batch, in order
    and as often as they occur. *)
Lemma attribution_filter_witness :
  filterM (for_us (rpm None false)) [0; 1; 2; 0]%nat start =
    (Ok [0; 2; 0]%nat, start) /\
  (1%nat ∈ relevant (rpm None false) garage [0; 1; 2; 0]%nat <->
   1%nat ∈ [0; 1; 2; 0]%nat /\ Z.land 2 4 > 0).
Proof.
  destruct (attribution_filter (rpm None false) [0; 1; 2; 0]%nat start)
    as (Hf & Hm & _).
  split; [exact Hf | exact (Hm 1%nat)].
Defined.

(** Without a byte count, payloads of two, five and three bytes stay. *)
Lemma no_normalisation_without_byte_count_witness :
  OBDCommand.bytes (raw true) = 0 /\
  heap (snd (__call__ (raw true) [0; 1; 2]%nat start)) = garage /\
  heap (snd (__call__ (raw false) [0; 1; 2]%nat start)) = garage.
Proof.
  split; [reflexivity|]. split.
  - apply (no_normalisation_without_byte_count (raw true) [0; 1; 2]%nat start).
    reflexivity.
  - apply (no_normalisation_without_byte_count (raw false) [0; 1; 2]%nat start).
    reflexivity.
Defined.

(** A strict call on a two-byte payload where four are expected raises, and
    the payload is still the two bytes. *)
Lemma failed_call_writes_nothing_witness :
  __call__ (rpm4 None true) [0; 1]%nat start =
    (Raise (OBDError
       (ShorterThanExpected (__str__ (rpm4 None true)) 2 4)), start) /\
  Message.data (heap start 0%nat) = [x41; x0c].
Proof.
  split; [reflexivity|].
  destruct (failed_call_writes_nothing (rpm4 None true) [0; 1]%nat start
              (OBDError (ShorterThanExpected (__str__ (rpm4 None true)) 2 4))
              start eq_refl) as (_ & _ & _ & H).
  exact (H 0%nat).
Defined.

(** Scenario A: four bytes expected, lenient, one engine message of two
    bytes: the message is padded with two zero bytes. With two bytes
    expected, a three-byte payload loses its last byte. *)
Lemma lenient_call_normalises_witness :
  (OBDCommand.bytes (rpm4 None false) = 4 /\ 0 < 4 /\
   OBDCommand.strict (rpm4 None false) = false) /\
  exists r s',
    __call__ (rpm4 None false) [0; 1]%nat start = (Ok r, s') /\
    OBDResponse.messages r = [0%nat] /\
    (0%nat ∈ OBDResponse.messages r ->
     len (Message.data (heap s' 0%nat)) = 4 /\
     Message.data (heap s' 0%nat) = [x41; x0c] ++ [x00; x00]).
Proof.
  split; [repeat split; lia|].
  destruct (lenient_call_normalises (rpm4 None false) [0; 1]%nat start 4)
    as (r & s' & E & Hr & H); [reflexivity | lia | reflexivity |].
  exists r, s'. split; [exact E|]. split; [exact Hr|].
  intros Hin. destruct (H 0%nat Hin) as (Hl & _ & Hpad & _).
  split; [exact Hl|]. apply Hpad. vm_compute. reflexivity.
Defined.

(** No engine message in the batch and one frame expected. *)
Lemma no_relevant_messages_witness :
  (OBDCommand.frames (rpm (Some 1) false) = Some 1 /\
   relevant (rpm (Some 1) false) garage [1%nat] = []) /\
  __call__ (rpm (Some 1) false) [1%nat] start =
    (Ok (OBDResponse.mk _ _ (rpm (Some 1) false) [] None),
     mkState garage
       [ExpectedFrames (__str__ (rpm (Some 1) false)) 1 0;
        NoAcceptableMessages (__str__ (rpm (Some 1) false))]) /\
  __call__ (rpm (Some 1) true) [1%nat] start =
    (Raise (OBDError (ExpectedFrames (__str__ (rpm (Some 1) true)) 1 0)),
     start).
Proof.
  split; [split; reflexivity|]. split.
  - apply (no_relevant_messages (rpm (Some 1) false) [1%nat] start);
      reflexivity.
  - apply (no_relevant_messages (rpm (Some 1) true) [1%nat] start);
      reflexivity.
Defined.

(** C1 fails in strict mode: one frame expected, nothing retained, and the
    call raises the frame-count error instead of returning a response. *)
Lemma strict_call_without_messages_raises :
  OBDCommand.frames (rpm (Some 1) true) = Some 1 /\
  OBDCommand.strict (rpm (Some 1) true) = true /\
  relevant (rpm (Some 1) true) garage [1%nat] = [] /\
  __call__ (rpm (Some 1) true) [1%nat] start =
    (Raise (OBDError (ExpectedFrames (__str__ (rpm (Some 1) true)) 1 0)),
     start) /\
  ~ (exists r s',
       __call__ (rpm (Some 1) true) [1%nat] start = (Ok r, s') /\
       OBDResponse.value r = None).
Proof.
  repeat split. intros (r & s' & E & _). discriminate E.
Qed.

(** Strict, four bytes expected, a two-byte and a five-byte engine message:
    the first one decides the error. *)
Lemma strict_payload_mismatch_witness :
  (OBDCommand.bytes (rpm4 None true) = 4 /\ 0 < 4 /\
   OBDCommand.strict (rpm4 None true) = true /\
   len (Message.data (heap start 0%nat)) <> 4) /\
  exists text,
    __call__ (rpm4 None true) [0; 1; 2]%nat start =
      (Raise (OBDError text), start) /\
    text = ShorterThanExpected (__str__ (rpm4 None true)) 2 4.
Proof.
  assert (len (Message.data (heap start 0%nat)) <> 4) as Hl
    by (vm_compute; discriminate).
  split; [repeat split; (lia || exact Hl)|].
  destruct (strict_payload_mismatch (rpm4 None true) [0; 1; 2]%nat start 4
              0%nat) as (text & E & _ & H);
    [reflexivity | lia | reflexivity | vm_compute; constructor | exact Hl |].
  exists text. split; [exact E|].
  destruct (H eq_refl) as (m' & Hm' & _ & _ & Hshort & _).
  injection Hm' as <-. apply Hshort. vm_compute. reflexivity.
Defined.

(** C3 fails when the frame count is wrong as well: strict, four bytes and
    two frames expected, one engine message of two bytes. The error is the
    frame-count error, with the counts 2 and 1, not "shorter than
    expected" with the lengths 2 and 4. *)
Lemma strict_frame_error_comes_first :
  OBDCommand.bytes (rpm4 (Some 2) true) = 4 /\
  OBDCommand.strict (rpm4 (Some 2) true) = true /\
  relevant (rpm4 (Some 2) true) garage [0; 1]%nat = [0%nat] /\
  len (Message.data (garage 0%nat)) = 2 /\
  __call__ (rpm4 (Some 2) true) [0; 1]%nat start =
    (Raise (OBDError (ExpectedFrames (__str__ (rpm4 (Some 2) true)) 2 1)),
     start) /\
  ~ (exists cmd got expected s',
       __call__ (rpm4 (Some 2) true) [0; 1]%nat start =
         (Raise (OBDError (ShorterThanExpected cmd got expected)), s')).
Proof.
  repeat split. intros (cmd & got & expected & s' & E). discriminate E.
Qed.

(** One frame expected and two retained: strict raises, lenient warns and
    decodes the two; one frame expected and none retained: lenient warns
    twice and decodes nothing. *)
Lemma frame_count_check_witness :
  (OBDCommand.frames (rpm (Some 1) true) = Some 1 /\
   len (relevant (rpm (Some 1) true) (heap start) [0; 1; 2]%nat) <> 1) /\
  __call__ (rpm (Some 1) true) [0; 1; 2]%nat start =
    (Raise (OBDError (ExpectedFrames (__str__ (rpm (Some 1) true)) 1 2)),
     start) /\
  exists r s' rest,
    __call__ (rpm (Some 1) false) [0; 1; 2]%nat start = (Ok r, s') /\
    log s' = ExpectedFrames (__str__ (rpm (Some 1) false)) 1 2 :: rest /\
    OBDResponse.value r = payloads (map (heap s') [0; 2]%nat).
Proof.
  assert (len (relevant (rpm (Some 1) true) (heap start) [0; 1; 2]%nat) <> 1)
    as Hl by (vm_compute; discriminate).
  split; [split; [reflexivity | exact Hl]|]. split.
  - apply (frame_count_check (rpm (Some 1) true) [0; 1; 2]%nat start 1);
      [reflexivity | exact Hl | reflexivity].
  - destruct (frame_count_check (rpm (Some 1) false) [0; 1; 2]%nat start 1)
      as [_ H]; [reflexivity | exact Hl |].
    destruct (H eq_refl) as (r & s' & rest & E & Hlog & _ & Hv & _).
    exists r, s', rest. split; [exact E|]. split; [exact Hlog|].
    apply Hv. vm_compute. discriminate.
Defined.

(** C4 fails when nothing is retained: lenient, one frame expected, no
    engine message. The call warns and returns, but the decoder is not
    called on the empty list of retained messages: the value is absent. *)
Lemma lenient_call_without_messages_decodes_nothing :
  OBDCommand.frames (rpm (Some 1) false) = Some 1 /\
  OBDCommand.strict (rpm (Some 1) false) = false /\
  relevant (rpm (Some 1) false) garage [1%nat] = [] /\
  len (relevant (rpm (Some 1) false) garage [1%nat]) <> 1 /\
  __call__ (rpm (Some 1) false) [1%nat] start =
    (Ok (OBDResponse.mk _ _ (rpm (Some 1) false) [] None),
     mkState garage
       [ExpectedFrames (__str__ (rpm (Some 1) false)) 1 0;
        NoAcceptableMessages (__str__ (rpm (Some 1) false))]) /\
  ~ (exists r s',
       __call__ (rpm (Some 1) false) [1%nat] start = (Ok r, s') /\
       OBDResponse.value r =
         OBDCommand.decode (rpm (Some 1) false)
           (map (heap s') (OBDResponse.messages r))).
Proof.
  repeat split; try reflexivity.
  - vm_compute. discriminate.
  - intros (r & s' & E & Hv). injection E as <- <-. discriminate Hv.
Qed.

(** The command [010C]: mode 1, parameter id 12. *)
Lemma mode_pid_from_command_witness :
  (utf8_decode (OBDCommand.command (rpm None false)) = Some [48; 49; 48; 67]
   /\ isHex [48; 49; 48; 67] = true /\ 2 < len [48; 49; 48; 67]) /\
  mode (rpm None false) = Ok (Some 1) /\
  pid (rpm None false) = Ok (Some 12).
Proof.
  split; [repeat split; reflexivity|].
  destruct (mode_pid_from_command (rpm None false)) as (_ & _ & H & _).
  destruct (H [48; 49; 48; 67] eq_refl) as (Hm & Hp & _).
  split; [apply Hm | apply Hp]; first [reflexivity | vm_compute; discriminate].
Defined.

(** C6 fails on a command that is not text: three bytes [0xFF]. Both
    accessors raise [UnicodeDecodeError] where the claim has them yield
    absent. *)
Lemma mode_of_garbled_command_raises :
  utf8_decode (OBDCommand.command garbled) = None /\
  mode garbled = Raise UnicodeDecodeError /\
  pid garbled = Raise UnicodeDecodeError /\
  mode garbled <> Ok None /\
  pid garbled <> Ok None.
Proof. repeat split; discriminate. Qed.

(** Two descriptors with the command [010C] and otherwise different
    fields are equal and hash alike; a descriptor is equal neither to
    [None] nor to a descriptor with another command. *)
Lemma identity_by_command_witness :
  (OBDCommand.command (rpm None false) =
   OBDCommand.command (rpm4 (Some 1) true) /\
   OBDCommand.command (rpm None false) <> OBDCommand.command (raw false)) /\
  __eq__ (rpm None false) (an_OBDCommand (rpm4 (Some 1) true)) = true /\
  __hash__ len (rpm None false) = __hash__ len (rpm4 (Some 1) true) /\
  __eq__ (rpm None false) none = false /\
  __eq__ (rpm None false) (an_OBDCommand (raw false)) = false.
Proof.
  assert (OBDCommand.command (rpm None false) <>
          OBDCommand.command (raw false)) as Hne by discriminate.
  split; [split; [reflexivity | exact Hne]|].
  destruct (identity_by_command len (rpm None false) (rpm4 (Some 1) true)
              none) as (_ & Hnone & _ & Hsame & _).
  destruct (identity_by_command len (rpm None false) (raw false) none)
    as (_ & _ & _ & _ & Hdiff).
  destruct (Hsame eq_refl) as [He Hh].
  split; [exact He|]. split; [exact Hh|]. split; [|exact (Hdiff Hne)].
  apply Hnone. intros c. discriminate.
Defined.

(** ** The further properties at the sample inputs *)

(** Lenient, four bytes and three frames expected, two engine messages of
    the wrong size: the call returns all the same. *)
Lemma lenient_call_returns_witness :
  OBDCommand.strict (rpm4 (Some 3) false) = false /\
  exists r s',
    __call__ (rpm4 (Some 3) false) [0; 1; 2]%nat start = (Ok r, s') /\
    OBDResponse.messages r = [0; 2]%nat.
Proof.
  split; [reflexivity|].
  destruct (lenient_call_returns (rpm4 (Some 3) false) [0; 1; 2]%nat start)
    as (r & s' & E & _ & Hr); [reflexivity|].
  exists r, s'. split; [exact E | exact Hr].
Defined.

(** The decoder of the four-byte request is handed four bytes. *)
Lemma returned_response_is_sized_witness :
  exists r s',
    __call__ (rpm4 None false) [0; 1]%nat start = (Ok r, s') /\
    len (Message.data (heap s' 0%nat)) = 4 /\
    OBDResponse.value r = Some [[x41; x0c; x00; x00]].
Proof.
  set (c := __call__ (rpm4 None false) [0; 1]%nat start).
  assert (c = (Ok (OBDResponse.mk _ _ (rpm4 None false) [0%nat]
                     (Some [[x41; x0c; x00; x00]])), snd c)) as E
    by reflexivity.
  destruct (returned_response_is_sized _ _ _ _ _ E) as (Hsz & _ & Hv).
  do 2 eexists. split; [exact E|]. split.
  - apply Hsz; [reflexivity|]. simpl. apply list_elem_of_singleton.
    reflexivity.
  - exact (Hv ltac:(discriminate)).
Defined.

(** The transmission's message, in the batch but not retained, and
    holding a payload of its own, is as it was after the engine
    descriptor's call. *)
Lemma call_writes_only_retained_payloads_witness :
  (1%nat ∉ relevant (rpm4 None false) garage [0; 1; 2]%nat) /\
  (forall x, x ∈ relevant (rpm4 None false) garage [0; 1; 2]%nat ->
     holder garage x 1%nat = false) /\
  heap (snd (__call__ (rpm4 None false) [0; 1; 2]%nat start)) 1%nat =
    garage 1%nat.
Proof.
  assert (1%nat ∉ relevant (rpm4 None false) garage [0; 1; 2]%nat) as Hn.
  { change (1%nat ∉ [0; 2]%nat). rewrite !not_elem_of_cons.
    repeat split; [discriminate..|apply not_elem_of_nil]. }
  assert (forall x, x ∈ relevant (rpm4 None false) garage [0; 1; 2]%nat ->
            holder garage x 1%nat = false) as Hh.
  { intros x Hx. change (x ∈ [0; 2]%nat) in Hx.
    rewrite !elem_of_cons, elem_of_nil in Hx.
    destruct Hx as [->|[->|[]]]; reflexivity. }
  split; [exact Hn|]. split; [exact Hh|].
  apply (call_writes_only_retained_payloads (rpm4 None false)
           [0; 1; 2]%nat start 1%nat); [exact Hn | exact Hh].
Defined.

(** Strict, two bytes expected, the engine's two-byte message: returned as
    it is, nothing logged. *)
Lemma conforming_call_is_silent_witness :
  relevant (rpm None true) garage [0; 1]%nat = [0%nat] /\
  __call__ (rpm None true) [0; 1]%nat start =
    (Ok (OBDResponse.mk _ _ (rpm None true) [0%nat] (Some [[x41; x0c]])),
     start).
Proof.
  split; [reflexivity|].
  apply (conforming_call_is_silent (rpm None true) [0; 1]%nat start).
  - intros F H. discriminate H.
  - intros _ m Hm. change (m ∈ [0%nat]) in Hm.
    apply list_elem_of_singleton in Hm. rewrite Hm. reflexivity.
  - discriminate.
Defined.

(** The padded message is not padded again. *)
Lemma returned_call_is_idempotent_witness :
  exists r s1 s2,
    __call__ (rpm4 None false) [0; 1]%nat start = (Ok r, s1) /\
    __call__ (rpm4 None false) [0; 1]%nat s1 = (Ok r, s2) /\
    heap s2 = heap s1 /\
    Message.data (heap s2 0%nat) = [x41; x0c; x00; x00].
Proof.
  set (c := __call__ (rpm4 None false) [0; 1]%nat start).
  assert (c = (Ok (OBDResponse.mk _ _ (rpm4 None false) [0%nat]
                     (Some [[x41; x0c; x00; x00]])), snd c)) as E
    by reflexivity.
  destruct (returned_call_is_idempotent _ _ _ _ _ E) as (s2 & E2 & Hh).
  do 3 eexists. split; [exact E|]. split; [exact E2|]. split; [exact Hh|].
  rewrite Hh. reflexivity.
Defined.

(** A strict call raising on a short payload has written and logged
    nothing. *)
Lemma strict_call_is_silent_witness :
  OBDCommand.strict (rpm4 None true) = true /\
  heap (snd (__call__ (rpm4 None true) [0; 1]%nat start)) = garage /\
  log (snd (__call__ (rpm4 None true) [0; 1]%nat start)) = [].
Proof.
  split; [reflexivity|].
  destruct (strict_call_is_silent (rpm4 None true) [0; 1]%nat start)
    as [Hh _]; [reflexivity|].
  split; [exact Hh | reflexivity].
Defined.

(** The strict two-byte request returns on the engine's two-byte message:
    the retained payloads are of two bytes. *)
Lemma strict_call_returns_iff_witness :
  OBDCommand.strict (rpm None true) = true /\
  forall m, m ∈ relevant (rpm None true) garage [0; 1]%nat ->
    len (Message.data (garage m)) = 2.
Proof.
  split; [reflexivity|].
  destruct (strict_call_returns_iff (rpm None true) [0; 1]%nat start)
    as [H _]; [reflexivity|].
  destruct H as [_ Hc].
  - exists (OBDResponse.mk _ _ (rpm None true) [0%nat] (Some [[x41; x0c]])),
      start.
    reflexivity.
  - apply Hc. reflexivity.
Defined.

(** Three frames expected and two retained, both short of four bytes and
    each with a payload of its own: three warnings, in this order. *)
Lemma lenient_call_warnings_witness :
  (OBDCommand.strict (rpm4 (Some 3) false) = false /\
   NoDup (relevant (rpm4 (Some 3) false) garage [0; 1; 2]%nat) /\
   apart garage (relevant (rpm4 (Some 3) false) garage [0; 1; 2]%nat)) /\
  exists r s',
    __call__ (rpm4 (Some 3) false) [0; 1; 2]%nat start = (Ok r, s') /\
    log s' =
      [ExpectedFrames (__str__ (rpm4 (Some 3) false)) 3 2;
       ShorterPadded (__str__ (rpm4 (Some 3) false)) [x41; x0c; x00; x00];
       ShorterPadded (__str__ (rpm4 (Some 3) false)) [x41; x0c; x1a; x00]].
Proof.
  assert (NoDup (relevant (rpm4 (Some 3) false) garage [0; 1; 2]%nat))
    as Hnd.
  { change (NoDup [0; 2]%nat). rewrite !NoDup_cons, !not_elem_of_cons.
    repeat split; [discriminate|apply not_elem_of_nil..|
                   by apply NoDup_nil]. }
  assert (apart garage (relevant (rpm4 (Some 3) false) garage
                          [0; 1; 2]%nat)) as Hap.
  { change (apart garage [0; 2]%nat). intros x y Hx Hy Hne.
    rewrite !elem_of_cons, elem_of_nil in Hx, Hy.
    destruct Hx as [->|[->|[]]], Hy as [->|[->|[]]];
      first [reflexivity | by destruct Hne]. }
  split; [split; [reflexivity | split; [exact Hnd | exact Hap]]|].
  destruct (lenient_call_warnings (rpm4 (Some 3) false) [0; 1; 2]%nat start)
    as (r & s' & E & L); [reflexivity | exact Hnd | exact Hap |].
  exists r, s'. split; [exact E | exact L].
Defined.

(** The same call adds three warnings to a log, where two retained
    messages allow four. *)
Lemma call_log_grows_witness :
  exists res s' extra,
    __call__ (rpm4 (Some 3) false) [0; 1; 2]%nat start = (res, s') /\
    log s' = log start ++ extra /\
    (length extra <= 4)%nat.
Proof.
  set (c := __call__ (rpm4 (Some 3) false) [0; 1; 2]%nat start).
  assert (c = (fst c, snd c)) as E by reflexivity.
  destruct (call_log_grows _ _ _ _ _ E) as (extra & L & B & _).
  exists (fst c), (snd c), extra.
  split; [exact E|]. split; [exact L | exact B].
Defined.

(** The engine's messages in another order, one of them twice. *)
Lemma lenient_store_ignores_batch_order_witness :
  (OBDCommand.strict (rpm4 None false) = false /\
   forall m, m ∈ [0; 2]%nat <-> m ∈ [2; 0; 0]%nat) /\
  heap (snd (__call__ (rpm4 None false) [0; 2]%nat start)) 2%nat =
  heap (snd (__call__ (rpm4 None false) [2; 0; 0]%nat start)) 2%nat.
Proof.
  assert (forall m, m ∈ [0; 2]%nat <-> m ∈ [2; 0; 0]%nat) as Hms.
  { intros m. rewrite !elem_of_cons, !elem_of_nil. tauto. }
  split; [split; [reflexivity | exact Hms]|].
  apply (lenient_store_ignores_batch_order (rpm4 None false)
           [0; 2]%nat [2; 0; 0]%nat start); [reflexivity | exact Hms].
Defined.

(** The descriptor with mask 0 retains none of the three messages; the
    message tagged 0 is not retained by the engine descriptor. *)
Lemma zero_mask_retains_nothing_witness :
  (OBDCommand.ecu (deaf false) = 0 /\ Message.ecu (garage 3%nat) = 0) /\
  relevant (deaf false) garage [0; 1; 2]%nat = [] /\
  3%nat ∉ relevant (rpm None false) garage [0; 3]%nat.
Proof.
  split; [split; reflexivity|].
  destruct (zero_mask_retains_nothing (deaf false) garage [0; 1; 2]%nat)
    as (_ & Hnil & _).
  destruct (zero_mask_retains_nothing (rpm None false) garage [0; 3]%nat)
    as (Hzero & _).
  split; [exact (Hnil eq_refl) | exact (Hzero 3%nat eq_refl)].
Defined.

(** The command [010C]: mode 1 within a byte, parameter id 12 below 256. *)
Lemma mode_pid_range_witness :
  (mode (rpm None false) = Ok (Some 1) /\
   pid (rpm None false) = Ok (Some 12)) /\
  0 <= 1 <= 255 /\
  0 <= 12 < 16 ^ (len (OBDCommand.command (rpm None false)) - 2).
Proof.
  split; [split; reflexivity|].
  destruct (mode_pid_range (rpm None false)) as [Hm Hp].
  split; [exact (Hm 1 eq_refl)|].
  destruct (Hp 12 eq_refl) as [H _]. exact H.
Defined.

(** The command of three bytes [0xFF] raises, and holds a byte outside
    ASCII. *)
Lemma accessors_raise_on_non_ascii_only_witness :
  mode garbled = Raise UnicodeDecodeError /\
  exists b, b ∈ OBDCommand.command garbled /\ 128 <= ord b.
Proof.
  split; [reflexivity|].
  destruct (accessors_raise_on_non_ascii_only garbled UnicodeDecodeError)
    as [_ H]; [left; reflexivity | exact H].
Defined.

(** Three descriptors with the command [010C]. *)
Lemma eq_is_equivalence_witness :
  (__eq__ (rpm None false) (an_OBDCommand (rpm4 None true)) = true /\
   __eq__ (rpm4 None true) (an_OBDCommand (rpm (Some 1) true)) = true) /\
  __eq__ (rpm None false) (an_OBDCommand (rpm (Some 1) true)) = true.
Proof.
  split; [split; reflexivity|].
  destruct (eq_is_equivalence (rpm None false) (rpm4 None true)
              (rpm (Some 1) true)) as (_ & _ & Htrans).
  exact (Htrans eq_refl eq_refl).
Defined.

(** Two descriptors with the command [010C] have the same mode and
    parameter id. *)
Lemma equal_descriptors_agree_witness :
  __eq__ (rpm None false) (an_OBDCommand (rpm4 (Some 1) true)) = true /\
  mode (rpm None false) = mode (rpm4 (Some 1) true) /\
  pid (rpm None false) = pid (rpm4 (Some 1) true).
Proof.
  split; [reflexivity|].
  destruct (equal_descriptors_agree len (rpm None false)
              (rpm4 (Some 1) true)) as [H _].
  exact (H eq_refl).
Defined.

(** A descriptor constructed with the defaults, [ECU.ALL] being [0xFF],
    retains the three tagged messages and decodes them. *)
Lemma default_descriptor_never_raises_witness :
  exists r s',
    __call__ (__init__ 255 "RAW"%string "Raw frames"%string
                (list_byte_of_string "0902") 0 payloads
                None None None None) [0; 1; 2; 3]%nat start = (Ok r, s') /\
    OBDResponse.messages r = [0; 1; 2]%nat /\
    OBDResponse.value r = payloads (map (heap s') [0; 1; 2]%nat).
Proof.
  destruct (default_descriptor_never_raises 255 "RAW"%string
              "Raw frames"%string (list_byte_of_string "0902") 0 payloads
              None [0; 1; 2; 3]%nat start) as (r & s' & E & Hr & Hv).
  exists r, s'. split; [exact E|].
  assert (OBDResponse.messages r = [0; 1; 2]%nat) as Hr' by exact Hr.
  split; [exact Hr'|]. rewrite <- Hr'. apply Hv. rewrite Hr'. discriminate.
Defined.

(** The error of the strict four-byte request names [010C] and "Engine
    RPM". *)
Lemma call_texts_name_descriptor_witness :
  exists text s',
    __call__ (rpm4 None true) [0; 1]%nat start =
      (Raise (OBDError text), s') /\
    text_cmd text = (list_byte_of_string "010C", "Engine RPM"%string).
Proof.
  set (c := __call__ (rpm4 None true) [0; 1]%nat start).
  assert (c = (Raise (OBDError
                 (ShorterThanExpected (__str__ (rpm4 None true)) 2 4)),
               snd c)) as E by reflexivity.
  destruct (call_texts_name_descriptor _ _ _ _ _ E) as [H _].
  do 2 eexists. split; [exact E|]. exact (H _ eq_refl).
Defined.

(** The clone of the first of two descriptor objects is a third object;
    the first is where it was. *)
Lemma clone_is_new_and_equivalent_witness :
  [rpm None false; raw true] !! 0%nat = Some (rpm None false) /\
  exists r objects' copy,
    clone_object 0 [rpm None false; raw true] = Some (r, objects') /\
    r <> 0%nat /\
    objects' !! r = Some copy /\
    objects' !! 0%nat = Some (rpm None false) /\
    OBDCommand.command copy = list_byte_of_string "010C".
Proof.
  split; [reflexivity|].
  destruct (clone_is_new_and_equivalent [rpm None false; raw true] 0%nat
              (rpm None false) eq_refl)
    as (r & objects' & copy & E & Hne & _ & Hcopy & Hkeep & _ & _ & _ &
        Hcommand & _).
  exists r, objects', copy. split; [exact E|]. split; [exact Hne|].
  split; [exact Hcopy|]. split; [exact (Hkeep 0%nat _ eq_refl)|].
  exact Hcommand.
Defined.

(** The engine's message 0 is padded to four bytes; the transmission's
    message 2, not retained and not in the batch, holds the same bytearray
    and sees the four bytes. *)
Lemma padding_reaches_every_holder_witness :
  (OBDCommand.strict (rpm4 None false) = false /\
   0 < OBDCommand.bytes (rpm4 None false) /\
   consistent depot /\
   0%nat ∈ relevant (rpm4 None false) depot [0; 3]%nat /\
   len (Message.data (depot 0%nat)) < 4 /\
   holder depot 0%nat 2%nat = true) /\
  Message.data
    (heap (snd (__call__ (rpm4 None false) [0; 3]%nat depot_start)) 2%nat) =
    [x41; x0c; x00; x00].
Proof.
  assert (consistent depot) as Hc.
  { intros m r.
    destruct m as [|[|[|[|m]]]], r as [|[|[|[|r]]]]; simpl;
      first [reflexivity | discriminate]. }
  assert (0%nat ∈ relevant (rpm4 None false) depot [0; 3]%nat) as Hin.
  { change (0%nat ∈ [0; 3]%nat). apply elem_of_cons. by left. }
  assert (len (Message.data (depot 0%nat)) < 4) as Hl
    by (vm_compute; reflexivity).
  split.
  { split; [reflexivity|]. split; [reflexivity|]. split; [exact Hc|].
    split; [exact Hin|]. split; [exact Hl | reflexivity]. }
  destruct (padding_reaches_every_holder (rpm4 None false) [0; 3]%nat
              depot_start 0%nat 2%nat) as [H _];
    [reflexivity | reflexivity | exact Hc | exact Hin | exact Hl
    | reflexivity | exact H].
Defined.

(** After that call the three holders of the bytearray see the same four
    bytes. *)
Lemma call_keeps_store_consistent_witness :
  consistent depot /\
  consistent (heap (snd (__call__ (rpm4 None false) [0; 3]%nat depot_start))).
Proof.
  assert (consistent depot) as Hc.
  { intros m r.
    destruct m as [|[|[|[|m]]]], r as [|[|[|[|r]]]]; simpl;
      first [reflexivity | discriminate]. }
  split; [exact Hc|].
  apply (call_keeps_store_consistent (rpm4 None false) [0; 3]%nat depot_start).
  exact Hc.
Defined.

(** Two engine messages that hold one bytearray of two bytes, four bytes
    expected: the first is padded in place, the second is then of four
    bytes, and the call warns once. *)
Lemma shared_payload_warns_once :
  holder depot 0%nat 1%nat = true /\
  log (snd (__call__ (rpm4 None false) [0; 1]%nat depot_start)) =
    [ShorterPadded (__str__ (rpm4 None false)) [x41; x0c; x00; x00]].
Proof. split; reflexivity. Qed.
